(** * Abbreviation tracker (tracker.py): a shallow embedding and its properties

    The module tracks one abbreviation region per editor view, re-parses it
    after every buffer change and decides which preview to draw.  Python
    integers are modelled by [Z], Python [str] by [string] (code points below
    256), dictionaries by [gmap], and the editor host by an explicit [View]
    record that is threaded through every call.  Exceptions are values of
    [outcome]; a raising call keeps the mutations made before the raise. *)

From Stdlib Require Import ZArith Lia Bool Ascii String DecimalString.
From stdpp Require Import base option gmap strings.

Set Warnings "-register-all".

Local Open Scope Z_scope.

(** ** Characters and strings as Python sees them *)

Module py.

Definition ord (c : ascii) : Z := Z.of_nat (nat_of_ascii c).

Definition between (lo hi : Z) (c : ascii) : bool :=
  (lo <=? ord c) && (ord c <=? hi).

(** [str.isspace] on one character, which is also what [\s] matches in a
    [str] pattern: the ASCII white space, the four separators 28..31, NEL
    and the no-break space. *)
Definition char_isspace (c : ascii) : bool :=
  between 9 13 c || between 28 32 c || (ord c =? 133) || (ord c =? 160).

(** [\d] in a [str] pattern: the decimal digits (category Nd). *)
Definition char_isdigit (c : ascii) : bool := between 48 57 c.

(** The alphabetic characters (categories Lu, Ll, Lt, Lm, Lo) below 256. *)
Definition char_isalpha (c : ascii) : bool :=
  between 65 90 c || between 97 122 c
  || (ord c =? 170) || (ord c =? 181) || (ord c =? 186)
  || between 192 214 c || between 216 246 c || between 248 255 c.

Fixpoint all_chars (p : ascii -> bool) (s : string) : bool :=
  match s with
  | EmptyString => true
  | String c s' => p c && all_chars p s'
  end.

(** Truth value of a string: non-empty. *)
Definition nonempty (s : string) : bool :=
  match s with EmptyString => false | String _ _ => true end.

(** [str.isalpha]: at least one character and all of them alphabetic. *)
Definition isalpha (s : string) : bool :=
  nonempty s && all_chars char_isalpha s.

Fixpoint drop (n : nat) (s : string) : string :=
  match n, s with
  | O, _ => s
  | S _, EmptyString => EmptyString
  | S n', String _ s' => drop n' s'
  end.

Fixpoint take (n : nat) (s : string) : string :=
  match n, s with
  | O, _ => EmptyString
  | S _, EmptyString => EmptyString
  | S n', String c s' => String c (take n' s')
  end.

Definition len (s : string) : Z := Z.of_nat (String.length s).


(** The slice [s[i:]]: a negative index counts from the end, and both
    kinds are clipped to the string. *)
Definition slice_from (s : string) (i : Z) : string :=
  let start := if i <? 0 then Z.max 0 (len s + i) else Z.min i (len s) in
  drop (Z.to_nat start) s.

(** The slice [s[i:j]] for indices already inside the string. *)
Definition slice (s : string) (i j : Z) : string :=
  take (Z.to_nat (j - i)) (drop (Z.to_nat i) s).

(** [c * n] for a one-character string: empty when [n] is not positive. *)
Fixpoint repeat_char (c : ascii) (n : nat) : string :=
  match n with
  | O => EmptyString
  | S n' => String c (repeat_char c n')
  end.

(** ['%d' % n] for a non-negative integer. *)
Definition format_d (n : nat) : string :=
  NilEmpty.string_of_uint (Nat.to_uint n).

Fixpoint join (sep : string) (l : list string) : string :=
  match l with
  | [] => EmptyString
  | [x] => x
  | x :: rest => x +:+ sep +:+ join sep rest
  end.

Definition dquote : string := String (ascii_of_nat 34) EmptyString.
Definition tab : ascii := ascii_of_nat 9.
Definition newline : ascii := ascii_of_nat 10.
Definition nl : string := String newline EmptyString.

(** Line boundaries of [str.splitlines] below 256: LF, VT, FF, CR, the
    separators 28..30 and NEL; CR LF counts once. *)
Definition char_islinebreak (c : ascii) : bool :=
  between 10 13 c || between 28 30 c || (ord c =? 133).

(** [cur] is the line read so far.  A boundary always closes the line; the
    end of the string closes it only when it is not empty. *)
Fixpoint splitlines_from (cur : string) (s : string) : list string :=
  match s with
  | EmptyString => if nonempty cur then [cur] else []
  | String c s' =>
      if char_islinebreak c then
        if ord c =? 13 then
          match s' with
          | String c' s'' =>
              if ord c' =? 10 then cur :: splitlines_from EmptyString s''
              else cur :: splitlines_from EmptyString s'
          | EmptyString => cur :: splitlines_from EmptyString s'
          end
        else cur :: splitlines_from EmptyString s'
      else splitlines_from (cur +:+ String c EmptyString) s'
  end.

Definition splitlines (s : string) : list string :=
  splitlines_from EmptyString s.

(** Values stored in option dictionaries and in the settings store. *)
Inductive value : Type :=
| VNone
| VBool (b : bool)
| VInt (n : Z)
| VStr (s : string).

Definition truthy (v : value) : bool :=
  match v with
  | VNone => false
  | VBool b => b
  | VInt n => negb (n =? 0)
  | VStr s => nonempty s
  end.

(** [v == s] for a string literal [s]. *)
Definition eq_str (v : value) (s : string) : bool :=
  match v with
  | VStr s' => String.eqb s' s
  | _ => false
  end.

(** Exceptions the tracker can meet.  The two scanner errors carry the
    [message] and [pos] attributes the code reads. *)
Inductive exn : Type :=
| ScannerException (message : string) (pos : option Z)
| TokenScannerException (message : string) (pos : option Z)
| TypeError (what : string)
| KeyError (key : string)
| AttributeError (attr : string)
| OtherException (name : string).

Inductive outcome (A : Type) : Type :=
| Return (x : A)
| Raise (e : exn).
Arguments Return {A} x.
Arguments Raise {A} e.

End py.

Abbreviation dict := (gmap string py.value).

(** ** The editor host (the [sublime] module)

    Only the calls the tracker makes are modelled.  A view holds its text,
    the caret, the region decorations and phantoms by key, and at most one
    popup. *)

Module sublime.

Record Region : Type := mkRegion { a : Z; b : Z }.

Definition begin_ (r : Region) : Z := Z.min (a r) (b r).
Definition end_ (r : Region) : Z := Z.max (a r) (b r).

Inductive layout : Type := LAYOUT_INLINE.

Inductive draw_flag : Type :=
| DRAW_SOLID_UNDERLINE
| DRAW_NO_FILL
| DRAW_NO_OUTLINE.

Inductive popup_flag : Type := COOPERATE_WITH_AUTO_COMPLETE.

Record Phantom : Type := mkPhantom {
  phantom_region : Region;
  phantom_content : string;
  phantom_layout : layout
}.

Record Decoration : Type := mkDecoration {
  deco_regions : list Region;
  deco_scope : py.value;
  deco_icon : string;
  deco_flags : list draw_flag
}.

Record Popup : Type := mkPopup {
  popup_content : string;
  popup_flags : popup_flag;
  popup_location : Z;
  popup_max_width : Z;
  popup_max_height : Z
}.

Record View : Type := mkView {
  id : Z;
  text : string;
  caret : Z;
  regions : gmap string Decoration;
  phantoms : gmap string (list Phantom);
  popup : option Popup
}.

(** An edit token, as handed to text commands. *)
Inductive Edit : Type := mkEdit.

(** A phantom set is bound to a key of the view it was created for. *)
Record PhantomSet : Type := mkPhantomSet { key : string }.

Definition size (v : View) : Z := py.len (text v).

Definition clip (v : View) (p : Z) : Z := Z.max 0 (Z.min p (size v)).

Definition substr (v : View) (r : Region) : string :=
  py.slice (text v) (clip v (begin_ r)) (clip v (end_ r)).

Definition with_text (v : View) (s : string) (c : Z) : View :=
  mkView (id v) s c (regions v) (phantoms v) (popup v).

Definition with_regions (v : View) (m : gmap string Decoration) : View :=
  mkView (id v) (text v) (caret v) m (phantoms v) (popup v).

Definition with_phantoms (v : View) (m : gmap string (list Phantom)) : View :=
  mkView (id v) (text v) (caret v) (regions v) m (popup v).

Definition with_popup (v : View) (p : option Popup) : View :=
  mkView (id v) (text v) (caret v) (regions v) (phantoms v) p.

Definition erase_regions (v : View) (k : string) : View :=
  with_regions v (delete k (regions v)).

Definition add_regions (v : View) (k : string) (rs : list Region)
    (scope : py.value) (icon : string) (flags : list draw_flag) : View :=
  with_regions v (<[k := mkDecoration rs scope icon flags]> (regions v)).

Definition erase_phantoms (v : View) (k : string) : View :=
  with_phantoms v (delete k (phantoms v)).

(** [PhantomSet.update]: the set's phantoms replace those under its key. *)
Definition update (ps : PhantomSet) (v : View) (l : list Phantom) : View :=
  with_phantoms v (<[key ps := l]> (phantoms v)).

Definition show_popup (v : View) (content : string) (flags : popup_flag)
    (location max_width max_height : Z) : View :=
  with_popup v (Some (mkPopup content flags location max_width max_height)).

Definition hide_popup (v : View) : View := with_popup v None.

(** [View.erase]: the text of the region goes away and a caret behind or
    inside it moves accordingly. *)
Definition erase (v : View) (r : Region) : View :=
  let lo := clip v (begin_ r) in
  let hi := clip v (end_ r) in
  let c := caret v in
  with_text v
    (py.take (Z.to_nat lo) (text v) +:+ py.drop (Z.to_nat hi) (text v))
    (if hi <=? c then c - (hi - lo) else if lo <? c then lo else c).

End sublime.

(** [utils.get_caret]: the position of the first caret of the view. *)
Module utils.
Definition get_caret (v : sublime.View) : Z := sublime.caret v.
End utils.

(** ** Parsed abbreviations (the [emmet] package)

    Of a parsed markup abbreviation the tracker reads only the [children]
    of the root and, of a node, its [name] and [children]. *)

Module AbbreviationNode.
Inductive t : Type := Build { name : option string; children : list t }.
End AbbreviationNode.

Module MarkupAbbreviation.
Record t : Type := Build { children : list AbbreviationNode.t }.
End MarkupAbbreviation.

(** ** Regular expressions (the part of [re] the tracker uses)

    A pattern is a sequence of items.  [match_here] is the backtracking
    matcher: it returns the text left after the match, a repetition taking
    as many characters as the rest of the pattern allows. *)

Module re.

Inductive item : Type :=
| Char (c : ascii)
| Class (p : ascii -> bool)
| Plus (p : ascii -> bool)
| Dollar.

(** [$] holds at the end of the text and also before a final line feed. *)
Definition at_end (s : string) : bool :=
  match s with
  | EmptyString => true
  | String c EmptyString => py.ord c =? 10
  | _ => false
  end.

Fixpoint match_here (pat : list item) : string -> option string :=
  match pat with
  | [] => fun s => Some s
  | Char c :: pat' => fun s =>
      match s with
      | String x s' => if Ascii.eqb x c then match_here pat' s' else None
      | EmptyString => None
      end
  | Class p :: pat' => fun s =>
      match s with
      | String x s' => if p x then match_here pat' s' else None
      | EmptyString => None
      end
  | Plus p :: pat' =>
      fix plus (s : string) : option string :=
        match s with
        | String x s' =>
            if p x then
              match plus s' with
              | Some rest => Some rest
              | None => match_here pat' s'
              end
            else None
        | EmptyString => None
        end
  | Dollar :: pat' => fun s => if at_end s then match_here pat' s else None
  end.

(** [re.match]: the number of characters matched at the start of [s]. *)
Definition match_ (pat : list item) (s : string) : option nat :=
  match match_here pat s with
  | Some rest => Some (String.length s - String.length rest)%nat
  | None => None
  end.

(** [re.sub] for a pattern that never matches the empty string: matches are
    looked for from left to right, each is replaced by [repl] and the search
    resumes behind it.  [skip] counts the characters of the current match
    still to drop. *)
Fixpoint sub_from (pat : list item) (repl : string) (skip : nat) (s : string)
    : string :=
  match s with
  | EmptyString => EmptyString
  | String c s' =>
      match skip with
      | S k => sub_from pat repl k s'
      | O =>
          match match_ pat s with
          | Some (S k) => repl +:+ sub_from pat repl k s'
          | _ => String c (sub_from pat repl O s')
          end
      end
  end.

Definition sub (pat : list item) (repl : string) (s : string) : string :=
  sub_from pat repl O s.

End re.

(** [html.escape(s, False)]: the three replacements, the ampersand first. *)
Module html.

Fixpoint replace (c : ascii) (by_ : string) (s : string) : string :=
  match s with
  | EmptyString => EmptyString
  | String x s' =>
      if Ascii.eqb x c then by_ +:+ replace c by_ s'
      else String x (replace c by_ s')
  end.

Definition escape (s : string) : string :=
  replace ">" "&gt;" (replace "<" "&lt;" (replace "&" "&amp;" s)).

End html.

(** ** Collaborators outside the module

    The option resolver and settings store ([emmet_sublime]), the two
    grammar parsers and the expansion engine ([emmet]), the syntax
    classifier and the highlighter.  Parsers and expansion may raise. *)

Class Collaborators : Type := {
  CssAbbreviation : Type;
  get_options : sublime.View -> Z -> bool -> dict;
  get_settings : string -> py.value -> py.value;
  markup_parse : string -> dict -> py.outcome MarkupAbbreviation.t;
  stylesheet_parse : string -> dict -> py.outcome CssAbbreviation;
  expand : MarkupAbbreviation.t + CssAbbreviation -> dict -> py.outcome string;
  is_html : py.value -> bool;
  highlight : string -> string;
  styles : string
}.

Definition ABBR_REGION_ID : string := "emmet-abbreviation".
Definition ABBR_PREVIEW_ID : string := "emmet-abbreviation-preview".

(** ** Templates and snippet formatting *)

Module render.

Section with_collaborators.
Context {collab : Collaborators}.

Definition preview_popup_html (content : string) : string :=
  "
    <body id=" +:+ py.dquote +:+ "emmet-preview-popup" +:+ py.dquote +:+ ">
        <style>
            body { line-height: 1.5rem; }
            .error { color: red }
            .error.message { font-size: 11px; line-height: 1.3rem; }
            .markup-preview { font-size: 11px; line-height: 1.3rem; }
            "
  +:+ styles
  +:+ "
        </style>
        <div>"
  +:+ content
  +:+ "</div>
    </body>
    ".

Definition preview_phantom_html (content : string) : string :=
  "
    <body id=" +:+ py.dquote +:+ "emmet-preview-phantom" +:+ py.dquote +:+ ">
        <style>
            body {
                background-color: var(--greenish);
                color: #fff;
                border-radius: 3px;
                padding: 1px 3px;
                position: relative;
            }

            .error { color: red }
        </style>
        <div class=" +:+ py.dquote +:+ "main" +:+ py.dquote +:+ ">"
  +:+ content
  +:+ "</div>
    </body>
    ".

(** Returns HTML content of forced abbreviation indicator. *)
Definition forced_indicator (content : string) : string :=
  "
        <body>
            <style>
                #emmet-forced-abbreviation {
                    background-color: var(--greenish);
                    color: #fff;
                    border-radius: 3px;
                    padding: 1px 3px;
                }
            </style>
            <div id=" +:+ py.dquote +:+ "emmet-forced-abbreviation" +:+ py.dquote +:+ ">"
  +:+ content
  +:+ "</div>
        </body>
        ".

(** The number of leading tabs times [width]. *)
Definition indent_size (line : string) (width : nat) : nat :=
  match re.match_ [re.Plus (Ascii.eqb py.tab)] line with
  | Some n => (n * width)%nat
  | None => O
  end.

Definition format_line (class_attr line : string) : string :=
  "<div" +:+ class_attr +:+ " style=" +:+ py.dquote +:+ "padding-left: "
  +:+ py.format_d (indent_size line 20) +:+ "px" +:+ py.dquote
  +:+ "><code>" +:+ line +:+ "</code></div>".

Definition format_snippet (text : string) (class_name : option string)
    : string :=
  let class_attr :=
    match class_name with
    | Some c =>
        if py.nonempty c
        then " class=" +:+ py.dquote +:+ c +:+ py.dquote
        else EmptyString
    | None => EmptyString
    end in
  py.join py.nl (map (format_line class_attr) (py.splitlines text)).

End with_collaborators.

End render.

(** ** Classification of markup abbreviations *)

(** Truth value of an optional string: present and non-empty. *)
Definition name_truthy (name : option string) : bool :=
  match name with
  | Some s => py.nonempty s
  | None => false
  end.

(** Check if given parsed markup abbreviation is simple.  A simple
    abbreviation may not be displayed to user as preview. *)
Definition is_simple_markup_abbreviation (abbr : MarkupAbbreviation.t) : bool :=
  match MarkupAbbreviation.children abbr with
  | [first] =>
      match AbbreviationNode.children first with
      | [] =>
          negb (name_truthy (AbbreviationNode.name first))
          || match AbbreviationNode.name first with
             | Some s => py.isalpha s
             | None => false
             end
      | _ :: _ => false
      end
  | [] => true
  | _ :: _ :: _ => false
  end.

(** ** The tracker *)

(** The [abbreviation] attribute: the empty dictionary of the constructor,
    [None], the record of a successful parse, or the record of a scanner
    error. *)
Inductive abbreviation_data : Type :=
| AbbrUnset
| AbbrNone
| AbbrParsed (abbr : string) (simple : bool) (preview : string)
| AbbrError (abbr : string) (message : string) (pos : option Z)
    (pointer : string).

#[global] Instance outcome_ret : MRet py.outcome := fun A x => py.Return x.
#[global] Instance outcome_bind : MBind py.outcome := fun A B f m =>
  match m with
  | py.Return x => f x
  | py.Raise e => py.Raise e
  end.

Module RegionTracker.

Record t : Type := Build {
  last_pos : Z;
  last_length : Z;
  region : sublime.Region;
  forced : bool;
  config : option dict;
  abbreviation : abbreviation_data;
  forced_indicator : option sublime.PhantomSet;
  offset : Z;
  _has_popup_preview : bool;
  _phantom_preview : option sublime.PhantomSet
}.

Definition init (start pos length : Z) (forced : bool) : t :=
  Build pos length (sublime.mkRegion start pos) forced (Some ∅) AbbrUnset
    None 0 false None.

Definition set_last (self : t) (pos length : Z) : t :=
  Build pos length (region self) (forced self) (config self)
    (abbreviation self) (forced_indicator self) (offset self)
    (_has_popup_preview self) (_phantom_preview self).

Definition set_region (self : t) (r : sublime.Region) : t :=
  Build (last_pos self) (last_length self) r (forced self) (config self)
    (abbreviation self) (forced_indicator self) (offset self)
    (_has_popup_preview self) (_phantom_preview self).

Definition set_config (self : t) (c : option dict) : t :=
  Build (last_pos self) (last_length self) (region self) (forced self) c
    (abbreviation self) (forced_indicator self) (offset self)
    (_has_popup_preview self) (_phantom_preview self).

Definition set_abbreviation (self : t) (d : abbreviation_data) : t :=
  Build (last_pos self) (last_length self) (region self) (forced self)
    (config self) d (forced_indicator self) (offset self)
    (_has_popup_preview self) (_phantom_preview self).

Definition set_forced_indicator (self : t) (p : option sublime.PhantomSet)
    : t :=
  Build (last_pos self) (last_length self) (region self) (forced self)
    (config self) (abbreviation self) p (offset self)
    (_has_popup_preview self) (_phantom_preview self).

Definition set_offset (self : t) (n : Z) : t :=
  Build (last_pos self) (last_length self) (region self) (forced self)
    (config self) (abbreviation self) (forced_indicator self) n
    (_has_popup_preview self) (_phantom_preview self).

Definition set_has_popup_preview (self : t) (flag : bool) : t :=
  Build (last_pos self) (last_length self) (region self) (forced self)
    (config self) (abbreviation self) (forced_indicator self) (offset self)
    flag (_phantom_preview self).

Definition set_phantom_preview (self : t) (p : option sublime.PhantomSet)
    : t :=
  Build (last_pos self) (last_length self) (region self) (forced self)
    (config self) (abbreviation self) (forced_indicator self) (offset self)
    (_has_popup_preview self) p.

(** Shifts tracker location by given offset. *)
Definition shift (self : t) (offset : Z) : t :=
  set_region self
    (sublime.mkRegion (sublime.a (region self) + offset)
       (sublime.b (region self) + offset)).

(** Extends or shrinks range by given size. *)
Definition extend (self : t) (size : Z) : t :=
  set_region self
    (sublime.mkRegion (sublime.a (region self))
       (sublime.b (region self) + size)).

(** Check if current region is in valid state. *)
Definition is_valid_range (self : t) : bool :=
  (sublime.a (region self) <? sublime.b (region self))
  || ((sublime.a (region self) =? sublime.b (region self)) && forced self).

(** Truth value of the [config] attribute: a non-empty dictionary. *)
Definition config_truthy (c : option dict) : bool :=
  match c with
  | Some d => negb (bool_decide (dom d = ∅))
  | None => false
  end.

(** The pointer line of an error record. *)
Definition pointer_of (pos : option Z) : string :=
  match pos with
  | Some n => py.repeat_char "-" (Z.to_nat n) +:+ "^"
  | None => EmptyString
  end.

Section with_collaborators.
Context {collab : Collaborators}.

(** The parser is chosen by the configured type; a stylesheet abbreviation
    is given the classification [True], a markup abbreviation the one of
    [is_simple_markup_abbreviation]. *)
Definition parse_by_type (abbr : string) (config : dict)
    : py.outcome ((MarkupAbbreviation.t + CssAbbreviation) * bool) :=
  if match config !! "type" with
     | Some v => py.eq_str v "stylesheet"
     | None => false
     end
  then
    parsed_abbr ← stylesheet_parse abbr config;
    mret (inr parsed_abbr, true)
  else
    parsed_abbr ← markup_parse abbr config;
    mret (inl parsed_abbr, is_simple_markup_abbreviation parsed_abbr).

(** The body of the [try] block of [update_abbreviation]: parsing, then the
    expansion under a copy of the options with the [preview] flag set. *)
Definition parse_and_expand (abbr : string) (config : option dict)
    : py.outcome (bool * string) :=
  match config with
  | None => py.Raise (py.AttributeError "get")
  | Some config =>
      parsed ← parse_by_type abbr config;
      let preview_config := <["preview" := py.VBool true]> config in
      preview ← expand (fst parsed) preview_config;
      mret (snd parsed, preview)
  end.

(** The text the tracker parses: the text of its region without the first
    [offset] characters. *)
Definition tracked_text (self : t) (view : sublime.View) : string :=
  let abbr := sublime.substr view (region self) in
  if offset self =? 0 then abbr else py.slice_from abbr (offset self).

(** The options are resolved once, when the tracker has none yet. *)
Definition resolve_config (self : t) (view : sublime.View) : t :=
  if config_truthy (config self) then self
  else set_config self
         (Some (get_options view (sublime.a (region self)) true)).

(** Updates abbreviation data from current tracker. *)
Definition update_abbreviation (self : t) (view : sublime.View)
    : py.outcome unit * t :=
  let abbr := tracked_text self view in
  let self := resolve_config self view in
  let self := set_abbreviation self AbbrNone in
  if negb (py.nonempty abbr) then (py.Return tt, self)
  else
    match parse_and_expand abbr (config self) with
    | py.Return (simple, preview) =>
        (py.Return tt, set_abbreviation self (AbbrParsed abbr simple preview))
    | py.Raise (py.ScannerException message pos)
    | py.Raise (py.TokenScannerException message pos) =>
        (py.Return tt,
         set_abbreviation self
           (AbbrError abbr message pos (pointer_of pos)))
    | py.Raise e => (py.Raise e, self)
    end.

(** Marks tracker in given view.  The glyph of the forced indicator lies
    beyond code point 255 and is kept as its UTF-8 bytes. *)
Definition mark (self : t) (view : sublime.View) : t * sublime.View :=
  let scope := get_settings "marker_scope" (py.VStr "region.accent") in
  let mark_opt :=
    [sublime.DRAW_SOLID_UNDERLINE; sublime.DRAW_NO_FILL;
     sublime.DRAW_NO_OUTLINE] in
  let view := sublime.erase_regions view ABBR_REGION_ID in
  let view :=
    sublime.add_regions view ABBR_REGION_ID [region self] scope EmptyString
      mark_opt in
  if forced self then
    let phantoms :=
      [sublime.mkPhantom (region self) (render.forced_indicator "⋮>")
         sublime.LAYOUT_INLINE] in
    let indicator :=
      match forced_indicator self with
      | Some ps => ps
      | None => sublime.mkPhantomSet ABBR_REGION_ID
      end in
    (set_forced_indicator self (Some indicator),
     sublime.update indicator view phantoms)
  else (self, view).

(** Hides preview of current abbreviation in given view. *)
Definition hide_preview (self : t) (view : sublime.View) : t * sublime.View :=
  let '(self, view) :=
    if _has_popup_preview self
    then (set_has_popup_preview self false, sublime.hide_popup view)
    else (self, view) in
  match _phantom_preview self with
  | Some _ =>
      (set_phantom_preview self None,
       sublime.erase_phantoms view ABBR_PREVIEW_ID)
  | None => (self, view)
  end.

(** Remove current tracker marker from given view. *)
Definition unmark (self : t) (view : sublime.View) : t * sublime.View :=
  let view := sublime.erase_regions view ABBR_REGION_ID in
  let view := sublime.erase_phantoms view ABBR_REGION_ID in
  hide_preview self view.

(** The [as_phantom] argument once defaulted: when the caller gives none,
    previews of stylesheet abbreviations go to a phantom. *)
Definition default_as_phantom (self : t) (as_phantom : option bool)
    : py.outcome bool :=
  match as_phantom with
  | Some flag => mret flag
  | None =>
      if config_truthy (config self) then
        match config self with
        | Some config =>
            match config !! "type" with
            | Some v => mret (py.eq_str v "stylesheet")
            | None => py.Raise (py.KeyError "type")
            end
        | None => mret false
        end
      else mret false
  end.

(** The pattern [\s+at\s\d+$]. *)
Definition at_suffix : list re.item :=
  [re.Plus py.char_isspace; re.Char "a"; re.Char "t";
   re.Class py.char_isspace; re.Plus py.char_isdigit; re.Dollar].

Definition error_snippet (message : string) : string :=
  html.escape (re.sub at_suffix EmptyString message).

Definition error_content (pointer message : string) : string :=
  "<div class=" +:+ py.dquote +:+ "error pointer" +:+ py.dquote +:+ ">"
  +:+ pointer
  +:+ "</div><div class=" +:+ py.dquote +:+ "error message" +:+ py.dquote
  +:+ ">" +:+ error_snippet message +:+ "</div>".

(** The content of a parsed abbreviation's preview. *)
Definition preview_content (self : t) (snippet : string)
    : py.outcome (option string) :=
  match config self with
  | None => py.Raise (py.TypeError "config is not subscriptable")
  | Some config =>
      match config !! "type" with
      | None => py.Raise (py.KeyError "type")
      | Some ty =>
          if negb (py.eq_str ty "stylesheet") then
            match config !! "syntax" with
            | None => py.Raise (py.KeyError "syntax")
            | Some syn =>
                let snippet :=
                  if is_html syn then highlight snippet
                  else html.escape snippet in
                mret (Some ("<div class=" +:+ py.dquote +:+ "markup-preview"
                            +:+ py.dquote +:+ ">"
                            +:+ render.format_snippet snippet None
                            +:+ "</div>"))
            end
          else mret (Some (render.format_snippet snippet None))
      end
  end.

(** What [show_preview] decides to draw: [None] when nothing is to be
    drawn.  A missing abbreviation record is tested for membership, which
    raises. *)
Definition content_of (self : t) (as_phantom : bool)
    : py.outcome (option string) :=
  match abbreviation self with
  | AbbrNone => py.Raise (py.TypeError "argument is not iterable")
  | AbbrError _ message _ pointer =>
      mret (Some (error_content pointer message))
  | AbbrParsed _ simple preview =>
      if forced self || as_phantom || negb simple
      then preview_content self preview
      else mret None
  | AbbrUnset =>
      if forced self || as_phantom
      then py.Raise (py.KeyError "preview")
      else py.Raise (py.KeyError "simple")
  end.

Definition content_truthy (content : option string) : bool :=
  match content with
  | Some s => py.nonempty s
  | None => false
  end.

(** The global preview setting, on by default. *)
Definition previews_enabled : bool :=
  py.truthy (get_settings "abbreviation_preview" (py.VBool true)).

(** Displays expanded preview of abbreviation in current tracker in given
    view. *)
Definition show_preview (self : t) (view : sublime.View)
    (as_phantom : option bool) : py.outcome unit * (t * sublime.View) :=
  if negb previews_enabled
  then (py.Return tt, (self, view))
  else
    match default_as_phantom self as_phantom with
    | py.Raise e => (py.Raise e, (self, view))
    | py.Return as_phantom =>
        match content_of self as_phantom with
        | py.Raise e => (py.Raise e, (self, view))
        | py.Return content =>
            if negb (content_truthy content)
            then (py.Return tt, hide_preview self view)
            else
              let content := default EmptyString content in
              if as_phantom then
                let preview :=
                  match _phantom_preview self with
                  | Some ps => ps
                  | None => sublime.mkPhantomSet ABBR_PREVIEW_ID
                  end in
                let r :=
                  sublime.mkRegion (sublime.end_ (region self))
                    (sublime.end_ (region self)) in
                let phantoms :=
                  [sublime.mkPhantom r (render.preview_phantom_html content)
                     sublime.LAYOUT_INLINE] in
                (py.Return tt,
                 (set_phantom_preview self (Some preview),
                  sublime.update preview view phantoms))
              else
                (py.Return tt,
                 (set_has_popup_preview self true,
                  sublime.show_popup view
                    (render.preview_popup_html content)
                    sublime.COOPERATE_WITH_AUTO_COMPLETE
                    (sublime.begin_ (region self)) 400 300))
        end
    end.

End with_collaborators.

End RegionTracker.

(** ** The registry and the event handlers

    [cache] maps the identity of a view to its tracker.  A tracker is an
    object shared between the cache and the caller, so every mutation of
    the tracker of a view is written back under the view's key. *)

Abbreviation registry := (gmap Z RegionTracker.t).

Section handlers.
Context {collab : Collaborators}.

(** Returns current abbreviation tracker for given editor, if available. *)
Definition get_tracker (cache : registry) (view : sublime.View)
    : option RegionTracker.t :=
  cache !! sublime.id view.

Definition stop_tracking (cache : registry) (view : sublime.View)
    (edit : option sublime.Edit) : registry * sublime.View :=
  let key := sublime.id view in
  match cache !! key with
  | Some tracker =>
      let '(tracker, view) := RegionTracker.unmark tracker view in
      let view :=
        if RegionTracker.forced tracker && bool_decide (is_Some edit)
        then sublime.erase view (RegionTracker.region tracker)
        else view in
      (delete key cache, view)
  | None => (cache, view)
  end.

(** Starts abbreviation tracking for given editor. *)
Definition start_tracking (cache : registry) (view : sublime.View)
    (start pos : Z) (forced : bool) (config : option dict) (offset : Z)
    : py.outcome RegionTracker.t * (registry * sublime.View) :=
  let tracker := RegionTracker.init start pos (sublime.size view) forced in
  let tracker := RegionTracker.set_config tracker config in
  let tracker := RegionTracker.set_offset tracker offset in
  match RegionTracker.update_abbreviation tracker view with
  | (py.Raise e, _) => (py.Raise e, (cache, view))
  | (py.Return _, tracker) =>
      let '(tracker, view) := RegionTracker.mark tracker view in
      (py.Return tracker, (<[sublime.id view := tracker]> cache, view))
  end.

(** The span arithmetic of [handle_change]: [delta] is the change of the
    document length and [last_pos] the caret before the edit. *)
Definition apply_delta (tracker : RegionTracker.t) (last_pos delta : Z)
    : RegionTracker.t :=
  let region := RegionTracker.region tracker in
  if delta <? 0 then
    (* Removed some content *)
    if last_pos =? sublime.a region
    then RegionTracker.shift tracker delta
    else if (sublime.a region <? last_pos) && (last_pos <=? sublime.b region)
    then RegionTracker.extend tracker delta
    else tracker
  else if (0 <? delta) && (sublime.a region <=? last_pos)
          && (last_pos <=? sublime.b region)
  then (* Inserted content *) RegionTracker.extend tracker delta
  else tracker.

Definition handle_change (cache : registry) (view : sublime.View)
    : py.outcome (option RegionTracker.t) * (registry * sublime.View) :=
  let key := sublime.id view in
  match get_tracker cache view with
  | None => (py.Return None, (cache, view))
  | Some tracker =>
      let last_pos := RegionTracker.last_pos tracker in
      let region := RegionTracker.region tracker in
      if (last_pos <? sublime.a region) || (sublime.b region <? last_pos)
      then (py.Return None, stop_tracking cache view None)
      else
        let length := sublime.size view in
        let pos := utils.get_caret view in
        let delta := length - RegionTracker.last_length tracker in
        let tracker := RegionTracker.set_last tracker pos length in
        let tracker := apply_delta tracker last_pos delta in
        let cache := <[key := tracker]> cache in
        if negb (RegionTracker.is_valid_range tracker)
        then (py.Return None, stop_tracking cache view None)
        else
          match RegionTracker.update_abbreviation tracker view with
          | (py.Raise e, tracker) =>
              (py.Raise e, (<[key := tracker]> cache, view))
          | (py.Return _, tracker) =>
              let '(tracker, view) := RegionTracker.mark tracker view in
              (py.Return (Some tracker), (<[key := tracker]> cache, view))
          end
  end.

Definition handle_selection_change (cache : registry) (view : sublime.View)
    (caret : option Z) : option RegionTracker.t * registry :=
  match get_tracker cache view with
  | Some tracker =>
      let caret := default (utils.get_caret view) caret in
      let tracker :=
        RegionTracker.set_last tracker caret
          (RegionTracker.last_length tracker) in
      (Some tracker, <[sublime.id view := tracker]> cache)
  | None => (None, cache)
  end.

End handlers.

(** The message and offset of a scanner or token-scanner error; [None] for
    any other exception. *)
Definition scanner_failure (e : py.exn) : option (string * option Z) :=
  match e with
  | py.ScannerException message pos
  | py.TokenScannerException message pos => Some (message, pos)
  | _ => None
  end.

(** ** A reading of the classification rule

    A tree is simple when it has no top-level child, or exactly one that has
    no children of its own and whose name is absent or made of alphabetic
    characters only. *)

Definition entirely_alphabetic (s : string) : Prop :=
  ∀ (n : nat) (c : ascii), String.get n s = Some c → py.char_isalpha c = true.

Definition simple_by_rule (abbr : MarkupAbbreviation.t) : Prop :=
  MarkupAbbreviation.children abbr = []
  ∨ ∃ child : AbbreviationNode.t,
      MarkupAbbreviation.children abbr = [child]
      ∧ AbbreviationNode.children child = []
      ∧ (AbbreviationNode.name child = None
         ∨ ∃ s : string,
             AbbreviationNode.name child = Some s ∧ entirely_alphabetic s).

(** ** Vocabulary of the statements *)


(** Every preview the view shows is one the tracker knows of: a popup only
    with the popup flag set, preview phantoms only with the phantom set at
    hand. *)
Definition owns_previews (self : RegionTracker.t) (view : sublime.View)
    : Prop :=
  (is_Some (sublime.popup view) → RegionTracker._has_popup_preview self = true)
  ∧ (is_Some (sublime.phantoms view !! ABBR_PREVIEW_ID)
     → is_Some (RegionTracker._phantom_preview self)).

(** No decoration, no forced indicator, no popup and no preview phantom. *)
Definition nothing_marked (self : RegionTracker.t) (view : sublime.View)
    : Prop :=
  sublime.regions view !! ABBR_REGION_ID = None
  ∧ sublime.phantoms view !! ABBR_REGION_ID = None
  ∧ RegionTracker._has_popup_preview self = false
  ∧ RegionTracker._phantom_preview self = None.

(** A character that is not an angle bracket. *)
Definition no_angle (c : ascii) : bool :=
  negb (Ascii.eqb c "<") && negb (Ascii.eqb c ">").

(** The phantom sets a tracker holds are the ones the code creates: the
    forced indicator under the region key and the preview under the preview
    key. *)
Definition well_keyed (self : RegionTracker.t) : Prop :=
  (∀ ps : sublime.PhantomSet,
     RegionTracker.forced_indicator self = Some ps →
     sublime.key ps = ABBR_REGION_ID)
  ∧ (∀ ps : sublime.PhantomSet,
       RegionTracker._phantom_preview self = Some ps →
       sublime.key ps = ABBR_PREVIEW_ID).

(** Neither the view nor the tracker has a preview. *)
Definition no_preview_shown (self : RegionTracker.t) (view : sublime.View)
    : Prop :=
  sublime.popup view = None
  ∧ sublime.phantoms view !! ABBR_PREVIEW_ID = None
  ∧ RegionTracker._has_popup_preview self = false
  ∧ RegionTracker._phantom_preview self = None.

Section drawing.
Context {collab : Collaborators}.

(** The last step of [show_preview], taken apart for the statements: the
    content goes to a phantom behind the region, through the tracker's
    phantom set (created when missing), or to a popup at its start. *)
Definition draw_preview (self : RegionTracker.t) (view : sublime.View)
    (as_phantom : bool) (content : string) : RegionTracker.t * sublime.View :=
  if as_phantom then
    let preview :=
      match RegionTracker._phantom_preview self with
      | Some ps => ps
      | None => sublime.mkPhantomSet ABBR_PREVIEW_ID
      end in
    let r :=
      sublime.mkRegion (sublime.end_ (RegionTracker.region self))
        (sublime.end_ (RegionTracker.region self)) in
    (RegionTracker.set_phantom_preview self (Some preview),
     sublime.update preview view
       [sublime.mkPhantom r (render.preview_phantom_html content)
          sublime.LAYOUT_INLINE])
  else
    (RegionTracker.set_has_popup_preview self true,
     sublime.show_popup view (render.preview_popup_html content)
       sublime.COOPERATE_WITH_AUTO_COMPLETE
       (sublime.begin_ (RegionTracker.region self)) 400 300).

End drawing.

(** ** Sample collaborators

    A toy grammar, enough to run the tracker: a markup abbreviation is a
    single alphabetic tag or [ul>li]; anything else is a scanner error at
    the first offending character, except two inputs that fail in other
    ways.  Every stylesheet abbreviation parses. *)

Module demo.

Fixpoint first_bad (s : string) : nat :=
  match s with
  | EmptyString => O
  | String c s' => if py.char_isalpha c then S (first_bad s') else O
  end.

Definition tag (name : string) (children : list AbbreviationNode.t)
    : AbbreviationNode.t :=
  AbbreviationNode.Build (Some name) children.

Definition parse_markup (s : string) (_ : dict)
    : py.outcome MarkupAbbreviation.t :=
  if String.eqb s "boom" then py.Raise (py.OtherException "RecursionError")
  else if String.eqb s "a>"
  then py.Raise (py.TokenScannerException "Unexpected end of input" None)
  else if String.eqb s "ul>li"
  then py.Return (MarkupAbbreviation.Build [tag "ul" [tag "li" []]])
  else if py.all_chars py.char_isalpha s
  then py.Return (MarkupAbbreviation.Build [tag s []])
  else py.Raise
         (py.ScannerException
            ("Unexpected character at " +:+ py.format_d (S (first_bad s)))
            (Some (Z.of_nat (first_bad s)))).

Definition parse_stylesheet (s : string) (_ : dict) : py.outcome string :=
  py.Return s.

Definition expand_parsed (parsed : MarkupAbbreviation.t + string) (_ : dict)
    : py.outcome string :=
  match parsed with
  | inl abbr =>
      match MarkupAbbreviation.children abbr with
      | [node] =>
          let name := default "div" (AbbreviationNode.name node) in
          py.Return ("<" +:+ name +:+ "></" +:+ name +:+ ">")
      | _ => py.Return "<div></div>"
      end
  | inr css => py.Return (css +:+ ": ;")
  end.

Definition markup_options : dict :=
  <["type" := py.VStr "markup"]> (<["syntax" := py.VStr "html"]> ∅).

Definition stylesheet_options : dict :=
  <["type" := py.VStr "stylesheet"]> (<["syntax" := py.VStr "css"]> ∅).

(** Previews are switched on or off by [previews]. *)
Definition collaborators (previews : bool) : Collaborators := {|
  CssAbbreviation := string;
  get_options := fun _ _ _ => markup_options;
  get_settings := fun name fallback =>
    if String.eqb name "abbreviation_preview" then py.VBool previews
    else fallback;
  markup_parse := parse_markup;
  stylesheet_parse := parse_stylesheet;
  expand := expand_parsed;
  is_html := fun syn => py.eq_str syn "html";
  highlight := fun s => s;
  styles := EmptyString
|}.

Definition view_of (text : string) (caret : Z) : sublime.View :=
  sublime.mkView 1 text caret ∅ ∅ None.

(** Options a caller may hand over: a syntax and no type. *)
Definition untyped_options : dict := <["syntax" := py.VStr "html"]> ∅.

(** A tracker over the first [n] characters with the given options. *)
Definition tracker_over (n : Z) (forced : bool) (options : dict)
    : RegionTracker.t :=
  RegionTracker.set_config (RegionTracker.init 0 n n forced) (Some options).

(** A tracker whose re-parse has run, with the given outcome. *)
Definition parsed_tracker (n : Z) (forced : bool) (options : dict)
    (data : abbreviation_data) : RegionTracker.t :=
  RegionTracker.set_abbreviation (tracker_over n forced options) data.

(** The registry that tracks the span from [start] to [pos] in view 1, the
    document being [length] characters long and the caret at [pos]. *)
Definition tracking (start pos length : Z) (forced : bool)
    : gmap Z RegionTracker.t :=
  {[ 1 := RegionTracker.init start pos length forced ]}.

(** A view that shows a popup. *)
Definition view_with_popup (text : string) (caret : Z) : sublime.View :=
  sublime.show_popup (view_of text caret) "earlier preview"
    sublime.COOPERATE_WITH_AUTO_COMPLETE 0 400 300.

(** The view after a first tracker drew its preview of [ul>li], as a
    popup or as a phantom. *)
Definition view_after_preview (as_phantom : bool) : sublime.View :=
  (RegionTracker.show_preview (collab := collaborators true)
     (parsed_tracker 5 false markup_options
        (AbbrParsed "ul>li" false "<ul></ul>"))
     (view_of "ul>li" 5) (Some as_phantom)).2.2.

End demo.

(** * Properties *)

(** ** Strings *)

Lemma append_cons (c : ascii) (s t : string) :
  String c s +:+ t = String c (s +:+ t).
Proof. reflexivity. Qed.

Lemma append_nil_l (t : string) : EmptyString +:+ t = t.
Proof. reflexivity. Qed.

(** [simpl] leaves string concatenation alone; this unfolds it on
    constructors. *)
Ltac push_append := rewrite ?append_cons, ?append_nil_l.



Lemma length_append (s1 s2 : string) :
  String.length (s1 +:+ s2) = (String.length s1 + String.length s2)%nat.
Proof. induction s1 as [|c s1 IH]; push_append; simpl; congruence. Qed.

Lemma all_chars_append (p : ascii → bool) (s1 s2 : string) :
  py.all_chars p (s1 +:+ s2) = py.all_chars p s1 && py.all_chars p s2.
Proof.
  induction s1 as [|c s1 IH]; push_append; simpl; [done|].
  rewrite IH. by destruct (p c).
Qed.

Lemma all_chars_get (p : ascii → bool) (s : string) :
  py.all_chars p s = true ↔
  ∀ (n : nat) (c : ascii), String.get n s = Some c → p c = true.
Proof.
  induction s as [|x s IH]; simpl.
  - split; [intros _ n c Hget; destruct n; discriminate | done].
  - rewrite andb_true_iff, IH. split.
    + intros [Hx Hs] [|n] c Hget; simpl in Hget.
      * by injection Hget as <-.
      * by apply (Hs n).
    + intros Hall. split.
      * by apply (Hall O).
      * intros n c Hget. by apply (Hall (S n)).
Qed.

(** ** Classification *)

(** C5. The classification of a parsed markup tree is true exactly when
    the tree has no top-level child, or has exactly one top-level child that
    has no children and whose name is absent or consists of alphabetic
    characters only; it is false in every other case. *)
Theorem is_simple_markup_abbreviation_rule (abbr : MarkupAbbreviation.t) :
  is_simple_markup_abbreviation abbr = true ↔ simple_by_rule abbr.
Proof.
  destruct abbr as [kids]. unfold is_simple_markup_abbreviation, simple_by_rule.
  simpl. destruct kids as [|first [|second rest]].
  - split; [by left | done].
  - destruct first as [name sub]. simpl. split.
    + intros Hs. right. exists (AbbreviationNode.Build name sub).
      destruct sub as [|g sub]; [|done]. simpl.
      split; [done|]. split; [done|].
      destruct name as [s|]; [right | by left].
      exists s. split; [done|].
      destruct s as [|c s]; [intros [|n] c Hget; discriminate|].
      simpl in Hs. unfold py.isalpha in Hs. simpl in Hs.
      exact (proj1 (all_chars_get py.char_isalpha (String c s)) Hs).
    + intros [Hnil | (child & Heq & Hsub & Hname)]; [done|].
      injection Heq as <-. simpl in Hsub, Hname. subst sub.
      destruct Hname as [-> | (s & -> & Halpha)]; [done|].
      destruct s as [|c s]; [done|]. simpl.
      unfold py.isalpha. simpl.
      exact (proj2 (all_chars_get py.char_isalpha (String c s)) Halpha).
  - split; [done|].
    intros [Hnil | (child & Heq & _)]; discriminate.
Qed.

(** ** Re-parsing *)

(** Unfolds the sequencing of calls that may raise. *)
Ltac run_outcome :=
  unfold mbind, outcome_bind, mret, outcome_ret in *; simpl in *.

Section update_abbreviation_facts.
Context {collab : Collaborators}.

Lemma config_truthy_resolve (self : RegionTracker.t) (view : sublime.View) :
  RegionTracker.config_truthy (RegionTracker.config self) = true →
  RegionTracker.resolve_config self view = self.
Proof. unfold RegionTracker.resolve_config. by intros ->. Qed.

Lemma update_abbreviation_empty (self : RegionTracker.t)
    (view : sublime.View) :
  py.nonempty (RegionTracker.tracked_text self view) = false →
  RegionTracker.update_abbreviation self view =
    (py.Return tt,
     RegionTracker.set_abbreviation
       (RegionTracker.resolve_config self view) AbbrNone).
Proof. unfold RegionTracker.update_abbreviation. by intros ->. Qed.

Lemma update_abbreviation_parse (self : RegionTracker.t)
    (view : sublime.View) :
  py.nonempty (RegionTracker.tracked_text self view) = true →
  RegionTracker.update_abbreviation self view =
    let abbr := RegionTracker.tracked_text self view in
    let self := RegionTracker.resolve_config self view in
    match RegionTracker.parse_and_expand abbr (RegionTracker.config self) with
    | py.Return (simple, preview) =>
        (py.Return tt,
         RegionTracker.set_abbreviation self (AbbrParsed abbr simple preview))
    | py.Raise e =>
        match scanner_failure e with
        | Some (message, pos) =>
            (py.Return tt,
             RegionTracker.set_abbreviation self
               (AbbrError abbr message pos (RegionTracker.pointer_of pos)))
        | None => (py.Raise e, RegionTracker.set_abbreviation self AbbrNone)
        end
    end.
Proof.
  unfold RegionTracker.update_abbreviation. intros ->. simpl.
  destruct (RegionTracker.parse_and_expand _ _) as [[simple preview]|e];
    [done|].
  by destruct e.
Qed.

(** After the lazy resolution the tracker always has options. *)
Lemma resolve_config_is_some (self : RegionTracker.t) (view : sublime.View) :
  ∃ d : dict,
    RegionTracker.config (RegionTracker.resolve_config self view) = Some d.
Proof.
  unfold RegionTracker.resolve_config.
  destruct (RegionTracker.config_truthy (RegionTracker.config self)) eqn:Hc.
  - destruct (RegionTracker.config self) as [d|]; [by exists d | done].
  - by eexists.
Qed.

(** A re-parse never leaves the constructor's empty record, and the pointer
    of an error record is the one computed from its offset. *)
Lemma update_abbreviation_records (self : RegionTracker.t)
    (view : sublime.View) :
  match RegionTracker.abbreviation
          (RegionTracker.update_abbreviation self view).2 with
  | AbbrUnset => False
  | AbbrError _ _ pos pointer => pointer = RegionTracker.pointer_of pos
  | AbbrNone | AbbrParsed _ _ _ => True
  end.
Proof.
  destruct (py.nonempty (RegionTracker.tracked_text self view)) eqn:Htext.
  - rewrite update_abbreviation_parse by done. simpl.
    destruct (RegionTracker.parse_and_expand _ _) as [[simple preview]|e];
      [done|].
    by destruct e.
  - by rewrite update_abbreviation_empty.
Qed.

(** The region, the caret snapshot and the forced flag are not touched by a
    re-parse. *)
Lemma update_abbreviation_frame (self : RegionTracker.t)
    (view : sublime.View) :
  let self' := (RegionTracker.update_abbreviation self view).2 in
  RegionTracker.region self' = RegionTracker.region self
  ∧ RegionTracker.forced self' = RegionTracker.forced self
  ∧ RegionTracker.last_pos self' = RegionTracker.last_pos self
  ∧ RegionTracker.last_length self' = RegionTracker.last_length self.
Proof.
  assert (Hres :
    RegionTracker.region (RegionTracker.resolve_config self view)
      = RegionTracker.region self
    ∧ RegionTracker.forced (RegionTracker.resolve_config self view)
      = RegionTracker.forced self
    ∧ RegionTracker.last_pos (RegionTracker.resolve_config self view)
      = RegionTracker.last_pos self
    ∧ RegionTracker.last_length (RegionTracker.resolve_config self view)
      = RegionTracker.last_length self).
  { unfold RegionTracker.resolve_config.
    by destruct (RegionTracker.config_truthy (RegionTracker.config self)). }
  unfold RegionTracker.update_abbreviation.
  destruct (negb (py.nonempty (RegionTracker.tracked_text self view)));
    simpl; [done|].
  match goal with
  | |- context [RegionTracker.parse_and_expand ?x ?c] =>
      destruct (RegionTracker.parse_and_expand x c) as [[simple preview]|e]
  end; [done|].
  by destruct e.
Qed.

(** C1, as the code has it.  For a stylesheet abbreviation (the resolved
    options have type stylesheet) whose parse and preview expansion succeed,
    the re-parse ends in the parsed state with the classification simple
    set to true. *)
Theorem stylesheet_abbreviation_is_simple (self : RegionTracker.t)
    (view : sublime.View) (d : dict) (css : CssAbbreviation)
    (preview : string) :
  let abbr := RegionTracker.tracked_text self view in
  py.nonempty abbr = true →
  RegionTracker.config (RegionTracker.resolve_config self view) = Some d →
  d !! "type" = Some (py.VStr "stylesheet") →
  stylesheet_parse abbr d = py.Return css →
  expand (inr css) (<["preview" := py.VBool true]> d) = py.Return preview →
  ∃ self' : RegionTracker.t,
    RegionTracker.update_abbreviation self view = (py.Return tt, self')
    ∧ RegionTracker.abbreviation self' = AbbrParsed abbr true preview.
Proof.
  intros abbr Htext Hcfg Htype Hparse Hexpand.
  rewrite update_abbreviation_parse by done. simpl.
  fold abbr. rewrite Hcfg. unfold RegionTracker.parse_and_expand.
  unfold RegionTracker.parse_by_type. rewrite Htype. simpl.
  rewrite Hparse. run_outcome. rewrite Hexpand. eauto.
Qed.

Lemma parse_by_type_raises (abbr : string) (d : dict) (e : py.exn) :
  RegionTracker.parse_by_type abbr d = py.Raise e ↔
  (if match d !! "type" with
      | Some v => py.eq_str v "stylesheet"
      | None => false
      end
   then stylesheet_parse abbr d = py.Raise e
   else markup_parse abbr d = py.Raise e).
Proof.
  unfold RegionTracker.parse_by_type.
  destruct (match d !! "type" with Some _ => _ | None => _ end).
  - destruct (stylesheet_parse abbr d); run_outcome; split; congruence.
  - destruct (markup_parse abbr d); run_outcome; split; congruence.
Qed.

(** C6. When the parser fails with a scanner or token-scanner error, the
    message and offset of the failure are stored in an error state and the
    call returns normally; any other exception of the parser or of the
    expansion engine leaves the call as that exception. *)
Theorem update_abbreviation_failures (self : RegionTracker.t)
    (view : sublime.View) (d : dict) (e : py.exn) :
  let abbr := RegionTracker.tracked_text self view in
  let resolved := RegionTracker.resolve_config self view in
  py.nonempty abbr = true →
  RegionTracker.config resolved = Some d →
  (RegionTracker.parse_by_type abbr d = py.Raise e
   ∨ ∃ parsed,
       RegionTracker.parse_by_type abbr d = py.Return parsed
       ∧ expand parsed.1 (<["preview" := py.VBool true]> d) = py.Raise e) →
  RegionTracker.update_abbreviation self view =
    match scanner_failure e with
    | Some (message, pos) =>
        (py.Return tt,
         RegionTracker.set_abbreviation resolved
           (AbbrError abbr message pos (RegionTracker.pointer_of pos)))
    | None => (py.Raise e, RegionTracker.set_abbreviation resolved AbbrNone)
    end.
Proof.
  intros abbr resolved Htext Hcfg Hfail.
  rewrite update_abbreviation_parse by done. simpl.
  fold abbr resolved. rewrite Hcfg. unfold RegionTracker.parse_and_expand.
  destruct Hfail as [-> | (parsed & -> & Hexpand)]; run_outcome.
  - done.
  - by rewrite Hexpand.
Qed.

End update_abbreviation_facts.

(** C1 as stated fails: a stylesheet abbreviation that parses is recorded
    with the classification simple set to true. *)
Lemma stylesheet_abbreviation_marked_simple :
  RegionTracker.update_abbreviation (collab := demo.collaborators true)
    (demo.tracker_over 3 false demo.stylesheet_options)
    (demo.view_of "m10" 3)
  = (py.Return tt,
     RegionTracker.set_abbreviation
       (demo.tracker_over 3 false demo.stylesheet_options)
       (AbbrParsed "m10" true "m10: ;")).
Proof. vm_compute. reflexivity. Qed.

Lemma stylesheet_abbreviation_is_simple_witness :
  ∃ self' : RegionTracker.t,
    RegionTracker.update_abbreviation (collab := demo.collaborators true)
      (demo.tracker_over 7 false demo.stylesheet_options)
      (demo.view_of "p10-20 and more" 7)
    = (py.Return tt, self')
    ∧ RegionTracker.abbreviation self' = AbbrParsed "p10-20 " true "p10-20 : ;".
Proof.
  apply (stylesheet_abbreviation_is_simple
           (collab := demo.collaborators true)
           (demo.tracker_over 7 false demo.stylesheet_options)
           (demo.view_of "p10-20 and more" 7)
           demo.stylesheet_options "p10-20 " "p10-20 : ;");
    vm_compute; reflexivity.
Defined.

Lemma update_abbreviation_failures_witness :
  RegionTracker.update_abbreviation (collab := demo.collaborators true)
    (demo.tracker_over 3 false demo.markup_options) (demo.view_of "a{{" 3)
  = (py.Return tt,
     RegionTracker.set_abbreviation
       (demo.tracker_over 3 false demo.markup_options)
       (AbbrError "a{{" "Unexpected character at 2" (Some 1) "-^"))
  ∧ RegionTracker.update_abbreviation (collab := demo.collaborators true)
      (demo.tracker_over 2 false demo.markup_options) (demo.view_of "a>" 2)
    = (py.Return tt,
       RegionTracker.set_abbreviation
         (demo.tracker_over 2 false demo.markup_options)
         (AbbrError "a>" "Unexpected end of input" None ""))
  ∧ RegionTracker.update_abbreviation (collab := demo.collaborators true)
      (demo.tracker_over 4 false demo.markup_options) (demo.view_of "boom" 4)
    = (py.Raise (py.OtherException "RecursionError"),
       RegionTracker.set_abbreviation
         (demo.tracker_over 4 false demo.markup_options) AbbrNone).
Proof.
  split; [|split].
  - apply (update_abbreviation_failures (collab := demo.collaborators true)
             (demo.tracker_over 3 false demo.markup_options)
             (demo.view_of "a{{" 3) demo.markup_options
             (py.ScannerException "Unexpected character at 2" (Some 1)));
      [vm_compute; reflexivity | vm_compute; reflexivity
      | left; vm_compute; reflexivity].
  - apply (update_abbreviation_failures (collab := demo.collaborators true)
             (demo.tracker_over 2 false demo.markup_options)
             (demo.view_of "a>" 2) demo.markup_options
             (py.TokenScannerException "Unexpected end of input" None));
      [vm_compute; reflexivity | vm_compute; reflexivity
      | left; vm_compute; reflexivity].
  - apply (update_abbreviation_failures (collab := demo.collaborators true)
             (demo.tracker_over 4 false demo.markup_options)
             (demo.view_of "boom" 4) demo.markup_options
             (py.OtherException "RecursionError"));
      [vm_compute; reflexivity | vm_compute; reflexivity
      | left; vm_compute; reflexivity].
Defined.

(** ** Showing the preview *)

Section show_preview_facts.
Context {collab : Collaborators}.

Lemma show_preview_enabled (self : RegionTracker.t) (view : sublime.View)
    (as_phantom : option bool) (flag : bool) (content : option string) :
  RegionTracker.previews_enabled = true →
  RegionTracker.default_as_phantom self as_phantom = py.Return flag →
  RegionTracker.content_of self flag = py.Return content →
  RegionTracker.show_preview self view as_phantom =
    if negb (RegionTracker.content_truthy content)
    then (py.Return tt, RegionTracker.hide_preview self view)
    else if flag then
      let preview :=
        match RegionTracker._phantom_preview self with
        | Some ps => ps
        | None => sublime.mkPhantomSet ABBR_PREVIEW_ID
        end in
      let r :=
        sublime.mkRegion (sublime.end_ (RegionTracker.region self))
          (sublime.end_ (RegionTracker.region self)) in
      (py.Return tt,
       (RegionTracker.set_phantom_preview self (Some preview),
        sublime.update preview view
          [sublime.mkPhantom r
             (render.preview_phantom_html (default EmptyString content))
             sublime.LAYOUT_INLINE]))
    else
      (py.Return tt,
       (RegionTracker.set_has_popup_preview self true,
        sublime.show_popup view
          (render.preview_popup_html (default EmptyString content))
          sublime.COOPERATE_WITH_AUTO_COMPLETE
          (sublime.begin_ (RegionTracker.region self)) 400 300)).
Proof.
  unfold RegionTracker.show_preview.
  intros -> -> ->. simpl.
  by destruct (RegionTracker.content_truthy content), flag.
Qed.

(** C2, on the code.  With previews enabled, a tracker whose abbreviation
    record is missing makes [show_preview] raise: the membership test on
    the missing record is a type error (a key error comes first when the
    target cannot be defaulted).  Nothing is drawn. *)
Theorem show_preview_empty_raises (self : RegionTracker.t)
    (view : sublime.View) (as_phantom : option bool) :
  RegionTracker.abbreviation self = AbbrNone →
  RegionTracker.previews_enabled = true →
  ∃ e : py.exn,
    RegionTracker.show_preview self view as_phantom
      = (py.Raise e, (self, view))
    ∧ (∀ flag : bool,
         RegionTracker.default_as_phantom self as_phantom = py.Return flag →
         e = py.TypeError "argument is not iterable").
Proof.
  unfold RegionTracker.show_preview. intros Habbr ->. simpl.
  destruct (RegionTracker.default_as_phantom self as_phantom) as [flag|e].
  - unfold RegionTracker.content_of. rewrite Habbr. eauto.
  - exists e. split; [done|]. intros flag Hflag. discriminate.
Qed.

(** C10. With the preview setting disabled [show_preview] returns at once
    and changes neither the tracker nor the view, so a popup or phantom of
    an earlier call stays; with the setting enabled and nothing to show,
    the previews are torn down by [hide_preview]. *)
Theorem show_preview_disabled_is_noop (self : RegionTracker.t)
    (view : sublime.View) (as_phantom : option bool) :
  (RegionTracker.previews_enabled = false →
   RegionTracker.show_preview self view as_phantom
     = (py.Return tt, (self, view)))
  ∧ (RegionTracker.previews_enabled = true →
     ∀ (flag : bool) (content : option string),
       RegionTracker.default_as_phantom self as_phantom = py.Return flag →
       RegionTracker.content_of self flag = py.Return content →
       RegionTracker.content_truthy content = false →
       RegionTracker.show_preview self view as_phantom
         = (py.Return tt, RegionTracker.hide_preview self view)).
Proof.
  split.
  - unfold RegionTracker.show_preview. by intros ->.
  - intros Hon flag content Hflag Hcontent Hnone.
    rewrite (show_preview_enabled self view as_phantom flag content) by done.
    by rewrite Hnone.
Qed.

End show_preview_facts.

(** ** The pattern that strips the position from an error message *)

Lemma match_here_plus_cons (p : ascii → bool) (pat : list re.item)
    (x : ascii) (s : string) :
  re.match_here (re.Plus p :: pat) (String x s) =
    if p x then
      match re.match_here (re.Plus p :: pat) s with
      | Some rest => Some rest
      | None => re.match_here pat s
      end
    else None.
Proof. reflexivity. Qed.




Lemma match_here_plus_greedy (p : ascii → bool) (pat : list re.item)
    (run tail rest : string) :
  py.nonempty run = true →
  py.all_chars p run = true →
  re.match_here (re.Plus p :: pat) tail = None →
  re.match_here pat tail = Some rest →
  re.match_here (re.Plus p :: pat) (run +:+ tail) = Some rest.
Proof.
  intros Hne Hrun Hstop Hrest.
  induction run as [|x run IH]; [discriminate|].
  simpl in Hrun. apply andb_true_iff in Hrun as [Hx Hrun].
  push_append. rewrite match_here_plus_cons, Hx.
  destruct run as [|y run].
  - push_append. by rewrite Hstop.
  - by rewrite IH.
Qed.




















(** ** The error preview *)

Section error_preview.
Context {collab : Collaborators}.


End error_preview.



(** ** Removing the marks *)

Section unmark_facts.
Context {collab : Collaborators}.

Lemma hide_preview_cleared (self : RegionTracker.t) (view : sublime.View) :
  RegionTracker._has_popup_preview self = false →
  RegionTracker._phantom_preview self = None →
  RegionTracker.hide_preview self view = (self, view).
Proof.
  unfold RegionTracker.hide_preview. intros -> Hnone. by rewrite Hnone.
Qed.

Lemma hide_preview_flags (self : RegionTracker.t) (view : sublime.View) :
  RegionTracker._has_popup_preview (RegionTracker.hide_preview self view).1
    = false
  ∧ RegionTracker._phantom_preview (RegionTracker.hide_preview self view).1
    = None.
Proof.
  unfold RegionTracker.hide_preview.
  destruct self as [? ? ? ? ? ? ? ? [] [?|]]; done.
Qed.

(** Hiding the preview leaves the text, the caret, the decorations and the
    phantoms under any key but the preview's. *)
Lemma hide_preview_view (self : RegionTracker.t) (view : sublime.View) :
  let view' := (RegionTracker.hide_preview self view).2 in
  sublime.id view' = sublime.id view
  ∧ sublime.text view' = sublime.text view
  ∧ sublime.caret view' = sublime.caret view
  ∧ sublime.regions view' = sublime.regions view
  ∧ (∀ k : string,
       k ≠ ABBR_PREVIEW_ID →
       sublime.phantoms view' !! k = sublime.phantoms view !! k).
Proof.
  unfold RegionTracker.hide_preview.
  destruct self as [? ? ? ? ? ? ? ? [] [?|]]; simpl;
    repeat split; try done; intros k Hk; by rewrite lookup_delete_ne.
Qed.

(** C8, as the code has it.  Calling [unmark] a second time changes
    nothing: the state after two calls is the state after one, and the call
    cannot raise.  After the call the decoration and the forced indicator
    are gone and the tracker holds neither a popup flag nor a phantom set.
    The popup is hidden exactly when the tracker had its popup flag set,
    and the preview phantoms are erased exactly when the tracker held its
    phantom set: a popup or a preview phantom the tracker does not know of
    stays in the view.  So both are gone when all the previews of the view
    were the tracker's, and with nothing marked the call changes
    nothing. *)
Theorem unmark_idempotent (self : RegionTracker.t) (view : sublime.View) :
  let once := RegionTracker.unmark self view in
  RegionTracker.unmark once.1 once.2 = once
  ∧ sublime.regions once.2 !! ABBR_REGION_ID = None
  ∧ sublime.phantoms once.2 !! ABBR_REGION_ID = None
  ∧ RegionTracker._has_popup_preview once.1 = false
  ∧ RegionTracker._phantom_preview once.1 = None
  ∧ sublime.popup once.2
    = (if RegionTracker._has_popup_preview self then None
       else sublime.popup view)
  ∧ sublime.phantoms once.2 !! ABBR_PREVIEW_ID
    = match RegionTracker._phantom_preview self with
      | Some _ => None
      | None => sublime.phantoms view !! ABBR_PREVIEW_ID
      end
  ∧ (owns_previews self view →
     sublime.popup once.2 = None
     ∧ sublime.phantoms once.2 !! ABBR_PREVIEW_ID = None)
  ∧ (nothing_marked self view → once = (self, view)).
Proof.
  destruct self as [lp ll rg fo cf ab fi off hp pp].
  destruct view as [vid txt car regs phs pop].
  unfold owns_previews, nothing_marked, RegionTracker.unmark,
    RegionTracker.hide_preview, sublime.erase_regions, sublime.erase_phantoms,
    sublime.hide_popup, sublime.with_regions, sublime.with_phantoms,
    sublime.with_popup.
  assert (Hkeys : ABBR_PREVIEW_ID ≠ ABBR_REGION_ID) by done.
  destruct hp, pp as [ps|]; simpl;
    rewrite ?(delete_delete (delete ABBR_REGION_ID phs)
                ABBR_REGION_ID ABBR_PREVIEW_ID), ?delete_delete_eq;
    (split; [done|]);
    (split; [apply lookup_delete_eq|]);
    (split;
      [rewrite ?(lookup_delete_ne _ ABBR_PREVIEW_ID ABBR_REGION_ID) by done;
       apply lookup_delete_eq|]);
    (split; [done|]); (split; [done|]);
    (split; [done|]);
    (split; [first [apply lookup_delete_eq | by apply lookup_delete_ne]|]);
    (split; [|intros (Hr & Hp & Hflag & Hset); try discriminate;
              by rewrite !delete_id by done]);
    intros [Hpop Hph]; split.
  - done.
  - apply lookup_delete_eq.
  - done.
  - rewrite lookup_delete_ne by done.
    destruct (phs !! ABBR_PREVIEW_ID) as [l|]; [|done].
    by destruct (Hph (mk_is_Some _ _ eq_refl)) as [? ?].
  - destruct pop as [pu|]; [|done].
    by specialize (Hpop (mk_is_Some _ _ eq_refl)).
  - apply lookup_delete_eq.
  - destruct pop as [pu|]; [|done].
    by specialize (Hpop (mk_is_Some _ _ eq_refl)).
  - rewrite lookup_delete_ne by done.
    destruct (phs !! ABBR_PREVIEW_ID) as [l|]; [|done].
    by destruct (Hph (mk_is_Some _ _ eq_refl)) as [? ?].
Qed.

End unmark_facts.

(** C8 as stated fails: a tracker started over a view on which an earlier
    tracker drew its preview does not know of that preview, and [unmark]
    leaves it, the popup as well as the preview phantom. *)
Lemma unmark_leaves_unknown_previews :
  (∃ (tracker : RegionTracker.t) (cache : gmap Z RegionTracker.t)
     (view : sublime.View),
     start_tracking (collab := demo.collaborators true) ∅
       (demo.view_after_preview false) 0 5 false None 0
     = (py.Return tracker, (cache, view))
     ∧ sublime.popup (RegionTracker.unmark tracker view).2
       = sublime.popup (demo.view_after_preview false)
     ∧ is_Some (sublime.popup (RegionTracker.unmark tracker view).2))
  ∧ (∃ (tracker : RegionTracker.t) (cache : gmap Z RegionTracker.t)
       (view : sublime.View),
       start_tracking (collab := demo.collaborators true) ∅
         (demo.view_after_preview true) 0 5 false None 0
       = (py.Return tracker, (cache, view))
       ∧ is_Some
           (sublime.phantoms (RegionTracker.unmark tracker view).2
              !! ABBR_PREVIEW_ID)).
Proof.
  split.
  - eexists _, _, _. split; [vm_compute; reflexivity|].
    split; [vm_compute; reflexivity|]. vm_compute. by eexists.
  - eexists _, _, _. split; [vm_compute; reflexivity|].
    vm_compute. by eexists.
Qed.

(** ** The registry and the change handler *)

Section handler_facts.
Context {collab : Collaborators}.

Lemma unmark_frame (self : RegionTracker.t) (view : sublime.View) :
  RegionTracker.forced (RegionTracker.unmark self view).1
    = RegionTracker.forced self
  ∧ RegionTracker.region (RegionTracker.unmark self view).1
    = RegionTracker.region self
  ∧ sublime.id (RegionTracker.unmark self view).2 = sublime.id view
  ∧ sublime.text (RegionTracker.unmark self view).2 = sublime.text view
  ∧ sublime.caret (RegionTracker.unmark self view).2 = sublime.caret view.
Proof.
  unfold RegionTracker.unmark, RegionTracker.hide_preview.
  by destruct self as [? ? ? ? ? ? ? ? [] [?|]].
Qed.

Lemma mark_frame (self : RegionTracker.t) (view : sublime.View) :
  RegionTracker.forced (RegionTracker.mark self view).1
    = RegionTracker.forced self
  ∧ RegionTracker.region (RegionTracker.mark self view).1
    = RegionTracker.region self
  ∧ sublime.id (RegionTracker.mark self view).2 = sublime.id view.
Proof.
  unfold RegionTracker.mark. by destruct (RegionTracker.forced self) eqn:Hf.
Qed.

Lemma stop_tracking_unfold (cache : registry) (view : sublime.View)
    (edit : option sublime.Edit) (tracker : RegionTracker.t) :
  get_tracker cache view = Some tracker →
  stop_tracking cache view edit =
    (delete (sublime.id view) cache,
     if RegionTracker.forced tracker && bool_decide (is_Some edit)
     then sublime.erase (RegionTracker.unmark tracker view).2
            (RegionTracker.region tracker)
     else (RegionTracker.unmark tracker view).2).
Proof.
  unfold get_tracker, stop_tracking. intros ->.
  destruct (unmark_frame tracker view) as (Hf & Hr & _).
  destruct (RegionTracker.unmark tracker view) as [tracker' view'].
  simpl in *. by rewrite Hf, Hr.
Qed.

Lemma stop_tracking_id (cache : registry) (view : sublime.View)
    (edit : option sublime.Edit) :
  sublime.id (stop_tracking cache view edit).2 = sublime.id view.
Proof.
  destruct (get_tracker cache view) as [tracker|] eqn:Hget.
  - rewrite (stop_tracking_unfold _ _ _ _ Hget). simpl.
    destruct (unmark_frame tracker view) as (_ & _ & Hid & _).
    by destruct (_ && _).
  - unfold get_tracker in Hget. unfold stop_tracking. by rewrite Hget.
Qed.

Lemma stop_tracking_forgets (cache : registry) (view : sublime.View)
    (edit : option sublime.Edit) :
  get_tracker (stop_tracking cache view edit).1
    (stop_tracking cache view edit).2 = None.
Proof.
  unfold get_tracker at 1. rewrite stop_tracking_id.
  destruct (get_tracker cache view) as [tracker|] eqn:Hget.
  - rewrite (stop_tracking_unfold _ _ _ _ Hget). simpl.
    apply lookup_delete_eq.
  - unfold get_tracker in Hget. unfold stop_tracking. by rewrite Hget.
Qed.

(** C9. With an active tracker, [stop_tracking] unmarks it and drops it
    from the registry.  The text of the tracked region is erased exactly
    when the tracker is forced and an edit is supplied; otherwise the view
    is the unmarked one and its text is the text before the call. *)
Theorem stop_tracking_effect (cache : registry) (view : sublime.View)
    (edit : option sublime.Edit) (tracker : RegionTracker.t) :
  get_tracker cache view = Some tracker →
  let unmarked := (RegionTracker.unmark tracker view).2 in
  let erasing := RegionTracker.forced tracker && bool_decide (is_Some edit) in
  let lo := sublime.clip view (sublime.begin_ (RegionTracker.region tracker)) in
  let hi := sublime.clip view (sublime.end_ (RegionTracker.region tracker)) in
  let after := stop_tracking cache view edit in
  after.1 = delete (sublime.id view) cache
  ∧ get_tracker after.1 after.2 = None
  ∧ after.2
    = (if erasing
       then sublime.erase unmarked (RegionTracker.region tracker)
       else unmarked)
  ∧ sublime.text after.2
    = (if erasing
       then py.take (Z.to_nat lo) (sublime.text view)
            +:+ py.drop (Z.to_nat hi) (sublime.text view)
       else sublime.text view).
Proof.
  intros Hget unmarked erasing lo hi after.
  split; [|split; [|split]].
  - unfold after. by rewrite (stop_tracking_unfold _ _ _ _ Hget).
  - apply stop_tracking_forgets.
  - unfold after. by rewrite (stop_tracking_unfold _ _ _ _ Hget).
  - unfold after. rewrite (stop_tracking_unfold _ _ _ _ Hget). simpl.
    fold erasing unmarked.
    destruct (unmark_frame tracker view) as (_ & _ & _ & Htext & _).
    fold unmarked in Htext.
    destruct erasing; [|done].
    unfold sublime.erase, sublime.with_text, sublime.clip, sublime.size.
    simpl. by rewrite Htext.
Qed.

End handler_facts.

Section change_handler_facts.
Context {collab : Collaborators}.

Lemma handle_change_outside (cache : registry) (view : sublime.View)
    (tracker : RegionTracker.t) :
  get_tracker cache view = Some tracker →
  RegionTracker.last_pos tracker < sublime.a (RegionTracker.region tracker)
  ∨ sublime.b (RegionTracker.region tracker) < RegionTracker.last_pos tracker →
  handle_change cache view = (py.Return None, stop_tracking cache view None).
Proof.
  intros Hget Hout. unfold handle_change. rewrite Hget.
  destruct (orb_true_iff
              (RegionTracker.last_pos tracker
                 <? sublime.a (RegionTracker.region tracker))
              (sublime.b (RegionTracker.region tracker)
                 <? RegionTracker.last_pos tracker)) as [_ Hor].
  rewrite Hor; [done|]. destruct Hout; [left | right]; lia.
Qed.

Lemma handle_change_inside (cache : registry) (view : sublime.View)
    (tracker : RegionTracker.t) :
  get_tracker cache view = Some tracker →
  sublime.a (RegionTracker.region tracker) ≤ RegionTracker.last_pos tracker
  ≤ sublime.b (RegionTracker.region tracker) →
  handle_change cache view =
    let edited :=
      apply_delta
        (RegionTracker.set_last tracker (utils.get_caret view)
           (sublime.size view))
        (RegionTracker.last_pos tracker)
        (sublime.size view - RegionTracker.last_length tracker) in
    let cache' := <[sublime.id view := edited]> cache in
    if negb (RegionTracker.is_valid_range edited)
    then (py.Return None, stop_tracking cache' view None)
    else
      match RegionTracker.update_abbreviation edited view with
      | (py.Raise e, parsed) =>
          (py.Raise e, (<[sublime.id view := parsed]> cache', view))
      | (py.Return _, parsed) =>
          (py.Return (Some (RegionTracker.mark parsed view).1),
           (<[sublime.id view := (RegionTracker.mark parsed view).1]> cache',
            (RegionTracker.mark parsed view).2))
      end.
Proof.
  intros Hget Hin. unfold handle_change. rewrite Hget.
  destruct (orb_false_iff
              (RegionTracker.last_pos tracker
                 <? sublime.a (RegionTracker.region tracker))
              (sublime.b (RegionTracker.region tracker)
                 <? RegionTracker.last_pos tracker)) as [_ Hor].
  rewrite Hor by (split; lia). simpl.
  match goal with
  | |- (if negb ?c then _ else _) = _ => destruct c
  end; simpl; [|done].
  match goal with
  | |- context [RegionTracker.update_abbreviation ?t view] =>
      destruct (RegionTracker.update_abbreviation t view) as [[u|e] parsed]
  end; [|done].
  by destruct (RegionTracker.mark parsed view).
Qed.

(** The span after the arithmetic, for a caret inside the span. *)
Lemma apply_delta_region (tracker : RegionTracker.t) (last_pos delta : Z) :
  let a := sublime.a (RegionTracker.region tracker) in
  let b := sublime.b (RegionTracker.region tracker) in
  a ≤ last_pos ≤ b →
  RegionTracker.region (apply_delta tracker last_pos delta) =
    if delta <? 0 then
      if last_pos =? a then sublime.mkRegion (a + delta) (b + delta)
      else sublime.mkRegion a (b + delta)
    else if 0 <? delta then sublime.mkRegion a (b + delta)
    else RegionTracker.region tracker.
Proof.
  intros a b Hin. unfold apply_delta. fold a b.
  destruct (delta <? 0).
  - destruct (last_pos =? a) eqn:Hedge; [done|].
    apply Z.eqb_neq in Hedge.
    assert ((a <? last_pos) && (last_pos <=? b) = true) as ->; [|done].
    apply andb_true_iff. split; lia.
  - destruct (0 <? delta); [|done]. simpl.
    destruct (Z.leb_spec a last_pos), (Z.leb_spec last_pos b);
      simpl; try done; lia.
Qed.

Lemma apply_delta_forced (tracker : RegionTracker.t) (last_pos delta : Z) :
  RegionTracker.forced (apply_delta tracker last_pos delta)
    = RegionTracker.forced tracker.
Proof.
  unfold apply_delta.
  by repeat match goal with |- context [if ?c then _ else _] => destruct c end.
Qed.

(** What is left in the registry after a change with the caret inside the
    span: nothing when the edited span is not valid, else a tracker with
    the edited span. *)
Lemma handle_change_survivor (cache : registry) (view : sublime.View)
    (tracker : RegionTracker.t) :
  get_tracker cache view = Some tracker →
  sublime.a (RegionTracker.region tracker) ≤ RegionTracker.last_pos tracker
  ≤ sublime.b (RegionTracker.region tracker) →
  let edited :=
    apply_delta
      (RegionTracker.set_last tracker (utils.get_caret view)
         (sublime.size view))
      (RegionTracker.last_pos tracker)
      (sublime.size view - RegionTracker.last_length tracker) in
  let after := handle_change cache view in
  if RegionTracker.is_valid_range edited
  then ∃ tracker' : RegionTracker.t,
         get_tracker after.2.1 after.2.2 = Some tracker'
         ∧ RegionTracker.region tracker' = RegionTracker.region edited
         ∧ RegionTracker.forced tracker' = RegionTracker.forced edited
         ∧ (after.1 = py.Return (Some tracker') ∨ ∃ e, after.1 = py.Raise e)
  else after = (py.Return None,
                stop_tracking (<[sublime.id view := edited]> cache) view None)
       ∧ get_tracker after.2.1 after.2.2 = None.
Proof.
  intros Hget Hin edited after. unfold after.
  rewrite (handle_change_inside _ _ _ Hget Hin). simpl. fold edited.
  destruct (RegionTracker.is_valid_range edited); simpl.
  - destruct (update_abbreviation_frame edited view) as (Hr & Hf & _).
    destruct (RegionTracker.update_abbreviation edited view)
      as [[u|e] parsed]; simpl in *.
    + destruct (mark_frame parsed view) as (Hf' & Hr' & Hid).
      exists (RegionTracker.mark parsed view).1. unfold get_tracker. simpl.
      rewrite Hid, lookup_insert_eq. rewrite Hr', Hf'. eauto.
    + exists parsed. unfold get_tracker. simpl.
      rewrite lookup_insert_eq. eauto 6.
  - split; [done|]. apply stop_tracking_forgets.
Qed.

(** C3. For a caret inside the span [a, b], [handle_change] moves the span
    by the change [delta] of the document length: a removal with the caret
    at [a] shifts both bounds, a removal with the caret behind [a] moves
    the end only, an insertion moves the end only, and no change of length
    leaves the span.  The tracker that survives has that span, and the
    tracker is dropped when that span is not valid. *)
Theorem handle_change_applies_delta (cache : registry) (view : sublime.View)
    (tracker : RegionTracker.t) :
  get_tracker cache view = Some tracker →
  let a := sublime.a (RegionTracker.region tracker) in
  let b := sublime.b (RegionTracker.region tracker) in
  let last_caret := RegionTracker.last_pos tracker in
  let delta := sublime.size view - RegionTracker.last_length tracker in
  a ≤ last_caret ≤ b →
  ∃ span : sublime.Region,
    (delta < 0 → last_caret = a →
     span = sublime.mkRegion (a + delta) (b + delta))
    ∧ (delta < 0 → a < last_caret → span = sublime.mkRegion a (b + delta))
    ∧ (0 < delta → span = sublime.mkRegion a (b + delta))
    ∧ (delta = 0 → span = sublime.mkRegion a b)
    ∧ let after := handle_change cache view in
      if RegionTracker.is_valid_range (RegionTracker.set_region tracker span)
      then ∃ tracker' : RegionTracker.t,
             get_tracker after.2.1 after.2.2 = Some tracker'
             ∧ RegionTracker.region tracker' = span
             ∧ (after.1 = py.Return (Some tracker')
                ∨ ∃ e, after.1 = py.Raise e)
      else after.1 = py.Return None
           ∧ get_tracker after.2.1 after.2.2 = None.
Proof.
  intros Hget a b last_caret delta Hin.
  pose (edited :=
    apply_delta
      (RegionTracker.set_last tracker (utils.get_caret view)
         (sublime.size view)) last_caret delta).
  assert (Hspan : RegionTracker.region edited =
    if delta <? 0 then
      if last_caret =? a then sublime.mkRegion (a + delta) (b + delta)
      else sublime.mkRegion a (b + delta)
    else if 0 <? delta then sublime.mkRegion a (b + delta)
    else RegionTracker.region tracker).
  { unfold edited. by rewrite apply_delta_region. }
  assert (Hvalid : RegionTracker.is_valid_range
            (RegionTracker.set_region tracker (RegionTracker.region edited))
          = RegionTracker.is_valid_range edited).
  { unfold RegionTracker.is_valid_range. simpl. unfold edited.
    by rewrite apply_delta_forced. }
  exists (RegionTracker.region edited).
  split; [|split; [|split; [|split]]].
  - intros Hneg Hedge. rewrite Hspan.
    destruct (Z.ltb_spec delta 0); [|lia].
    by destruct (Z.eqb_spec last_caret a).
  - intros Hneg Hbehind. rewrite Hspan.
    destruct (Z.ltb_spec delta 0); [|lia].
    destruct (Z.eqb_spec last_caret a); [lia|done].
  - intros Hpos. rewrite Hspan.
    destruct (Z.ltb_spec delta 0); [lia|].
    destruct (Z.ltb_spec 0 delta); [done|lia].
  - intros Hzero. rewrite Hspan.
    destruct (Z.ltb_spec delta 0); [lia|].
    destruct (Z.ltb_spec 0 delta); [lia|].
    unfold a, b. by destruct (RegionTracker.region tracker).
  - intros after. rewrite Hvalid.
    pose proof (handle_change_survivor cache view tracker Hget Hin) as Hs.
    simpl in Hs. fold delta last_caret edited after in Hs.
    destruct (RegionTracker.is_valid_range edited).
    + destruct Hs as (tracker' & Hlook & Hr & _ & Hres). eauto.
    + destruct Hs as [Hafter Hnone]. split; [by rewrite Hafter|done].
Qed.

(** C4. After [handle_change] the view has no tracker, or its tracker has
    a valid span.  With the caret outside the span the tracker is stopped
    at once, on the registry as it was, so no change of length is applied;
    with the caret inside, the tracker is stopped after the arithmetic when
    the edited span is not valid. *)
Theorem handle_change_valid_or_destroyed (cache : registry)
    (view : sublime.View) :
  let after := handle_change cache view in
  (get_tracker after.2.1 after.2.2 = None
   ∨ ∃ survivor : RegionTracker.t,
       get_tracker after.2.1 after.2.2 = Some survivor
       ∧ RegionTracker.is_valid_range survivor = true)
  ∧ (∀ tracker : RegionTracker.t,
       get_tracker cache view = Some tracker →
       RegionTracker.last_pos tracker
         < sublime.a (RegionTracker.region tracker)
       ∨ sublime.b (RegionTracker.region tracker)
         < RegionTracker.last_pos tracker →
       after = (py.Return None, stop_tracking cache view None)
       ∧ get_tracker after.2.1 after.2.2 = None)
  ∧ (∀ tracker : RegionTracker.t,
       get_tracker cache view = Some tracker →
       sublime.a (RegionTracker.region tracker)
         ≤ RegionTracker.last_pos tracker
         ≤ sublime.b (RegionTracker.region tracker) →
       let edited :=
         apply_delta
           (RegionTracker.set_last tracker (utils.get_caret view)
              (sublime.size view))
           (RegionTracker.last_pos tracker)
           (sublime.size view - RegionTracker.last_length tracker) in
       RegionTracker.is_valid_range edited = false →
       after = (py.Return None,
                stop_tracking (<[sublime.id view := edited]> cache) view None)
       ∧ get_tracker after.2.1 after.2.2 = None).
Proof.
  intros after.
  assert (Hout : ∀ tracker : RegionTracker.t,
    get_tracker cache view = Some tracker →
    RegionTracker.last_pos tracker < sublime.a (RegionTracker.region tracker)
    ∨ sublime.b (RegionTracker.region tracker)
      < RegionTracker.last_pos tracker →
    after = (py.Return None, stop_tracking cache view None)
    ∧ get_tracker after.2.1 after.2.2 = None).
  { intros tracker Hget Hcaret. unfold after.
    rewrite (handle_change_outside _ _ _ Hget Hcaret). simpl.
    split; [done|]. apply stop_tracking_forgets. }
  split; [|split; [done|]].
  - destruct (get_tracker cache view) as [tracker|] eqn:Hget.
    + destruct (Z.lt_ge_cases (RegionTracker.last_pos tracker)
                  (sublime.a (RegionTracker.region tracker))) as [Hlo|Hlo].
      { left. by apply (Hout tracker); [|left]. }
      destruct (Z.lt_ge_cases (sublime.b (RegionTracker.region tracker))
                  (RegionTracker.last_pos tracker)) as [Hhi|Hhi].
      { left. by apply (Hout tracker); [|right]. }
      pose proof (handle_change_survivor cache view tracker Hget
                    (conj Hlo Hhi)) as Hs.
      simpl in Hs. fold after in Hs.
      destruct (RegionTracker.is_valid_range _) eqn:Hvalid in Hs.
      * destruct Hs as (tracker' & Hlook & Hr & Hf & _). right.
        exists tracker'. split; [done|].
        unfold RegionTracker.is_valid_range in *. by rewrite Hr, Hf.
      * left. apply Hs.
    + left. unfold after, handle_change. by rewrite Hget.
  - intros tracker Hget Hin edited Hinvalid.
    pose proof (handle_change_survivor cache view tracker Hget Hin) as Hs.
    simpl in Hs. fold edited after in Hs. by rewrite Hinvalid in Hs.
Qed.

End change_handler_facts.

(** ** The statements at sample inputs *)

Lemma is_simple_markup_abbreviation_rule_witness :
  simple_by_rule (MarkupAbbreviation.Build [demo.tag "div" []])
  ∧ is_simple_markup_abbreviation
      (MarkupAbbreviation.Build [demo.tag "ul" [demo.tag "li" []]])
    = false
  ∧ is_simple_markup_abbreviation
      (MarkupAbbreviation.Build [demo.tag "h1" []])
    = false.
Proof.
  split; [|split; reflexivity].
  apply (is_simple_markup_abbreviation_rule
           (MarkupAbbreviation.Build [demo.tag "div" []])).
  reflexivity.
Defined.

Lemma show_preview_empty_raises_witness :
  RegionTracker.update_abbreviation (collab := demo.collaborators true)
    (demo.tracker_over 0 true demo.markup_options) (demo.view_of "" 0)
  = (py.Return tt, demo.parsed_tracker 0 true demo.markup_options AbbrNone)
  ∧ RegionTracker.show_preview (collab := demo.collaborators true)
    (demo.parsed_tracker 0 true demo.markup_options AbbrNone)
    (demo.view_of "" 0) None
  = (py.Raise (py.TypeError "argument is not iterable"),
     (demo.parsed_tracker 0 true demo.markup_options AbbrNone,
      demo.view_of "" 0)).
Proof.
  split; [vm_compute; reflexivity|].
  destruct (show_preview_empty_raises (collab := demo.collaborators true)
              (demo.parsed_tracker 0 true demo.markup_options AbbrNone)
              (demo.view_of "" 0) None)
    as (e & Hshow & He); [reflexivity | vm_compute; reflexivity |].
  rewrite Hshow. rewrite (He false); [reflexivity|].
  vm_compute. reflexivity.
Defined.

Lemma show_preview_disabled_is_noop_witness :
  RegionTracker.show_preview (collab := demo.collaborators false)
    (RegionTracker.set_has_popup_preview
       (demo.parsed_tracker 3 false demo.markup_options
          (AbbrParsed "div" true "<div></div>")) true)
    (demo.view_with_popup "div" 3) None
  = (py.Return tt,
     (RegionTracker.set_has_popup_preview
        (demo.parsed_tracker 3 false demo.markup_options
           (AbbrParsed "div" true "<div></div>")) true,
      demo.view_with_popup "div" 3))
  ∧ sublime.popup
      (RegionTracker.show_preview (collab := demo.collaborators true)
         (RegionTracker.set_has_popup_preview
            (demo.parsed_tracker 3 false demo.markup_options
               (AbbrParsed "div" true "<div></div>")) true)
         (demo.view_with_popup "div" 3) None).2.2
    = None.
Proof.
  split.
  - apply (show_preview_disabled_is_noop (collab := demo.collaborators false)).
    vm_compute. reflexivity.
  - destruct (show_preview_disabled_is_noop
                (collab := demo.collaborators true)
                (RegionTracker.set_has_popup_preview
                   (demo.parsed_tracker 3 false demo.markup_options
                      (AbbrParsed "div" true "<div></div>")) true)
                (demo.view_with_popup "div" 3) None) as [_ Hhide].
    rewrite (Hhide ltac:(vm_compute; reflexivity) false None);
      vm_compute; reflexivity.
Defined.

Lemma unmark_idempotent_witness :
  RegionTracker.unmark
    (RegionTracker.unmark
       (RegionTracker.set_has_popup_preview
          (demo.tracker_over 3 true demo.markup_options) true)
       (demo.view_with_popup "div" 3)).1
    (RegionTracker.unmark
       (RegionTracker.set_has_popup_preview
          (demo.tracker_over 3 true demo.markup_options) true)
       (demo.view_with_popup "div" 3)).2
  = RegionTracker.unmark
      (RegionTracker.set_has_popup_preview
         (demo.tracker_over 3 true demo.markup_options) true)
      (demo.view_with_popup "div" 3)
  ∧ sublime.popup
      (RegionTracker.unmark
         (RegionTracker.set_has_popup_preview
            (demo.tracker_over 3 true demo.markup_options) true)
         (demo.view_with_popup "div" 3)).2
    = None.
Proof.
  destruct (unmark_idempotent
              (RegionTracker.set_has_popup_preview
                 (demo.tracker_over 3 true demo.markup_options) true)
              (demo.view_with_popup "div" 3))
    as (Htwice & _ & _ & _ & _ & _ & _ & Hown & _).
  split; [exact Htwice|]. apply Hown. split.
  - intros _. reflexivity.
  - intros [l Hl]. vm_compute in Hl. discriminate.
Defined.

Lemma stop_tracking_effect_witness :
  sublime.text
    (stop_tracking (demo.tracking 2 5 7 true) (demo.view_of "ab123cd" 5)
       (Some sublime.mkEdit)).2
  = "abcd"
  ∧ sublime.text
      (stop_tracking (demo.tracking 2 5 7 true) (demo.view_of "ab123cd" 5)
         None).2
    = "ab123cd".
Proof.
  split.
  - destruct (stop_tracking_effect (demo.tracking 2 5 7 true)
                (demo.view_of "ab123cd" 5) (Some sublime.mkEdit)
                (RegionTracker.init 2 5 7 true))
      as (_ & _ & _ & Htext); [vm_compute; reflexivity|].
    etrans; [exact Htext|]. vm_compute. reflexivity.
  - destruct (stop_tracking_effect (demo.tracking 2 5 7 true)
                (demo.view_of "ab123cd" 5) None
                (RegionTracker.init 2 5 7 true))
      as (_ & _ & _ & Htext); [vm_compute; reflexivity|].
    etrans; [exact Htext|]. vm_compute. reflexivity.
Defined.

Lemma handle_change_applies_delta_witness :
  ∃ tracker' : RegionTracker.t,
    get_tracker
      (handle_change (collab := demo.collaborators true)
         (demo.tracking 5 9 9 false) (demo.view_of "01234ab" 7)).2.1
      (handle_change (collab := demo.collaborators true)
         (demo.tracking 5 9 9 false) (demo.view_of "01234ab" 7)).2.2
    = Some tracker'
    ∧ RegionTracker.region tracker' = sublime.mkRegion 5 7.
Proof.
  destruct (handle_change_applies_delta (collab := demo.collaborators true)
              (demo.tracking 5 9 9 false) (demo.view_of "01234ab" 7)
              (RegionTracker.init 5 9 9 false))
    as (span & _ & Hend & _ & _ & Hafter);
    [vm_compute; reflexivity | vm_compute; split; discriminate |].
  rewrite (Hend ltac:(vm_compute; reflexivity) ltac:(vm_compute; reflexivity))
    in Hafter.
  destruct Hafter as (tracker' & Hlook & Hregion & _).
  exists tracker'. split; [exact Hlook | exact Hregion].
Defined.

Lemma handle_change_valid_or_destroyed_witness :
  handle_change (collab := demo.collaborators true)
    (demo.tracking 5 9 9 false) (demo.view_of "01234" 5)
  = (py.Return None,
     stop_tracking
       (<[1 := RegionTracker.set_region
                 (RegionTracker.set_last (RegionTracker.init 5 9 9 false) 5 5)
                 (sublime.mkRegion 5 5)]>
          (demo.tracking 5 9 9 false))
       (demo.view_of "01234" 5) None)
  ∧ get_tracker
      (handle_change (collab := demo.collaborators true)
         (demo.tracking 5 9 9 false) (demo.view_of "01234" 5)).2.1
      (handle_change (collab := demo.collaborators true)
         (demo.tracking 5 9 9 false) (demo.view_of "01234" 5)).2.2
    = None.
Proof.
  destruct (handle_change_valid_or_destroyed
              (collab := demo.collaborators true)
              (demo.tracking 5 9 9 false) (demo.view_of "01234" 5))
    as (_ & _ & Hinvalid).
  apply (Hinvalid (RegionTracker.init 5 9 9 false));
    [vm_compute; reflexivity | vm_compute; split; discriminate
    | vm_compute; reflexivity].
Defined.

(** ** The scenarios of the specification, run on the sample grammar *)

(** What is left of the tracker of view 1 after a change: its span and its
    abbreviation record. *)
Lemma scenario_forced_insert :
  (λ t, (RegionTracker.region t, RegionTracker.abbreviation t))
    <$> get_tracker
          (handle_change (collab := demo.collaborators true)
             (demo.tracking 10 10 10 true)
             (demo.view_of "0123456789a{{" 13)).2.1
          (demo.view_of "0123456789a{{" 13)
  = Some (sublime.mkRegion 10 13,
          AbbrError "a{{" "Unexpected character at 2" (Some 1) "-^").
Proof. vm_compute. reflexivity. Qed.

Lemma scenario_delete_at_end :
  (λ t, (RegionTracker.region t, RegionTracker.abbreviation t))
    <$> get_tracker
          (handle_change (collab := demo.collaborators true)
             (demo.tracking 5 9 9 false) (demo.view_of "01234ab" 7)).2.1
          (demo.view_of "01234ab" 7)
  = Some (sublime.mkRegion 5 7, AbbrParsed "ab" true "<ab></ab>").
Proof. vm_compute. reflexivity. Qed.

Lemma scenario_delete_at_start :
  (λ t, (RegionTracker.region t, RegionTracker.abbreviation t))
    <$> get_tracker
          (handle_change (collab := demo.collaborators true)
             (handle_selection_change (demo.tracking 5 9 9 false)
                (demo.view_of "01234abcd" 9) (Some 5)).2
             (demo.view_of "0123abcd" 4)).2.1
          (demo.view_of "0123abcd" 4)
  = Some (sublime.mkRegion 4 8, AbbrParsed "abcd" true "<abcd></abcd>").
Proof. vm_compute. reflexivity. Qed.

Lemma scenario_shrink_to_nothing :
  get_tracker
    (handle_change (collab := demo.collaborators true)
       (demo.tracking 5 9 9 false) (demo.view_of "01234" 5)).2.1
    (demo.view_of "01234" 5)
  = None.
Proof. vm_compute. reflexivity. Qed.

Lemma scenario_simple_tag_is_not_previewed :
  RegionTracker.show_preview (collab := demo.collaborators true)
    (demo.parsed_tracker 3 false demo.markup_options
       (AbbrParsed "div" true "<div></div>"))
    (demo.view_of "div" 3) None
  = (py.Return tt,
     (demo.parsed_tracker 3 false demo.markup_options
        (AbbrParsed "div" true "<div></div>"),
      demo.view_of "div" 3)).
Proof. vm_compute. reflexivity. Qed.

(** A stylesheet abbreviation is recorded as simple and still previewed:
    the preview goes to a phantom by default. *)
Lemma scenario_stylesheet_preview :
  sublime.phantom_region
    <$> (sublime.phantoms
           (RegionTracker.show_preview (collab := demo.collaborators true)
              (demo.parsed_tracker 3 false demo.stylesheet_options
                 (AbbrParsed "m10" true "m10: ;"))
              (demo.view_of "m10" 3) None).2.2
         !!! ABBR_PREVIEW_ID)
  = [sublime.mkRegion 3 3].
Proof. vm_compute. reflexivity. Qed.

(** * Further properties of the tracker *)

(** ** The span operations *)

Lemma set_region_same (self : RegionTracker.t) :
  RegionTracker.set_region self (RegionTracker.region self) = self.
Proof. by destruct self. Qed.

Lemma region_eta (r : sublime.Region) :
  sublime.mkRegion (sublime.a r) (sublime.b r) = r.
Proof. by destruct r. Qed.

(** X1. Shifting a tracker never changes whether its range is valid;
    shifting back by the opposite offset restores the tracker; two shifts
    add up; and shifting commutes with extending. *)
Theorem shift_keeps_validity (self : RegionTracker.t) (d e n : Z) :
  RegionTracker.is_valid_range (RegionTracker.shift self d)
    = RegionTracker.is_valid_range self
  ∧ RegionTracker.shift (RegionTracker.shift self d) (- d) = self
  ∧ RegionTracker.shift (RegionTracker.shift self d) e
    = RegionTracker.shift self (d + e)
  ∧ RegionTracker.shift (RegionTracker.extend self n) d
    = RegionTracker.extend (RegionTracker.shift self d) n.
Proof.
  destruct self as [lp ll [a b] fo cf ab fi off hp pp].
  unfold RegionTracker.is_valid_range, RegionTracker.shift,
    RegionTracker.extend, RegionTracker.set_region. simpl.
  split; [|split; [|split]].
  - destruct (Z.ltb_spec (a + d) (b + d)), (Z.ltb_spec a b),
      (Z.eqb_spec (a + d) (b + d)), (Z.eqb_spec a b); simpl; try done; lia.
  - do 2 f_equal; lia.
  - do 2 f_equal; lia.
  - do 2 f_equal; lia.
Qed.

(** X2. Extending by a non-negative size keeps a valid range valid; an
    unforced tracker whose range is shrunk by its whole width or more is
    no longer valid, while a forced tracker shrunk by exactly its width
    still is; and two extensions add up. *)
Theorem extend_and_validity (self : RegionTracker.t) (n m : Z) :
  let width :=
    sublime.b (RegionTracker.region self)
    - sublime.a (RegionTracker.region self) in
  (0 ≤ n → RegionTracker.is_valid_range self = true →
   RegionTracker.is_valid_range (RegionTracker.extend self n) = true)
  ∧ (n ≤ - width → RegionTracker.forced self = false →
     RegionTracker.is_valid_range (RegionTracker.extend self n) = false)
  ∧ (n = - width → RegionTracker.forced self = true →
     RegionTracker.is_valid_range (RegionTracker.extend self n) = true)
  ∧ RegionTracker.extend (RegionTracker.extend self n) m
    = RegionTracker.extend self (n + m).
Proof.
  destruct self as [lp ll [a b] fo cf ab fi off hp pp].
  unfold RegionTracker.is_valid_range, RegionTracker.extend,
    RegionTracker.set_region. simpl.
  split; [|split; [|split]].
  - intros Hn Hvalid.
    destruct (Z.ltb_spec a b); simpl in *.
    + destruct (Z.ltb_spec a (b + n)); [done|lia].
    + destruct (Z.eqb_spec a b); simpl in *; [|done]. subst fo.
      destruct (Z.ltb_spec a (b + n)); [done|]. simpl.
      destruct (Z.eqb_spec a (b + n)); [done|lia].
  - intros Hn ->. destruct (Z.ltb_spec a (b + n)); [lia|]. simpl.
    by rewrite andb_false_r.
  - intros -> ->. destruct (Z.ltb_spec a (b + - (b - a))); [done|]. simpl.
    destruct (Z.eqb_spec a (b + - (b - a))); [done|lia].
  - do 2 f_equal; lia.
Qed.

Lemma extend_and_validity_witness :
  RegionTracker.is_valid_range
    (RegionTracker.extend (RegionTracker.init 5 9 9 false) 3) = true
  ∧ RegionTracker.is_valid_range
      (RegionTracker.extend (RegionTracker.init 5 9 9 false) (-4)) = false
  ∧ RegionTracker.is_valid_range
      (RegionTracker.extend (RegionTracker.init 5 9 9 true) (-4)) = true.
Proof.
  split; [|split].
  - destruct (extend_and_validity (RegionTracker.init 5 9 9 false) 3 0)
      as (Hgrow & _). apply Hgrow; [lia | reflexivity].
  - destruct (extend_and_validity (RegionTracker.init 5 9 9 false) (-4) 0)
      as (_ & Hshrink & _).
    apply Hshrink; [vm_compute; discriminate | reflexivity].
  - destruct (extend_and_validity (RegionTracker.init 5 9 9 true) (-4) 0)
      as (_ & _ & Hforced & _).
    apply Hforced; reflexivity.
Defined.

(** ** The tracked text *)

Lemma len_take (n : nat) (s : string) :
  py.len (py.take n s) = Z.min (Z.of_nat n) (py.len s).
Proof.
  unfold py.len. revert s. induction n as [|n IH]; intros [|c s]; simpl;
    try lia.
  specialize (IH s). lia.
Qed.

Lemma len_drop (n : nat) (s : string) :
  py.len (py.drop n s) = Z.max 0 (py.len s - Z.of_nat n).
Proof.
  unfold py.len. revert s. induction n as [|n IH]; intros [|c s]; simpl;
    try lia.
  specialize (IH s). lia.
Qed.

Lemma len_nonneg (s : string) : 0 ≤ py.len s.
Proof. unfold py.len. lia. Qed.

Lemma nonempty_len (s : string) : py.nonempty s = false ↔ py.len s = 0.
Proof. unfold py.len. destruct s; simpl; split; try done; lia. Qed.

Lemma len_slice_from (s : string) (i : Z) :
  py.len (py.slice_from s i) =
    if i <? 0 then Z.min (- i) (py.len s) else Z.max 0 (py.len s - i).
Proof.
  unfold py.slice_from. rewrite len_drop.
  pose proof (len_nonneg s). destruct (Z.ltb_spec i 0); lia.
Qed.

Lemma len_substr (view : sublime.View) (r : sublime.Region) :
  0 ≤ sublime.a r → sublime.a r ≤ sublime.b r →
  sublime.b r ≤ sublime.size view →
  py.len (sublime.substr view r) = sublime.b r - sublime.a r.
Proof.
  intros Ha Hab Hb.
  unfold sublime.substr, py.slice, sublime.clip, sublime.begin_, sublime.end_.
  rewrite len_take, len_drop. fold (sublime.size view). lia.
Qed.

Section tracked_text_facts.
Context {collab : Collaborators}.

(** X3. For a region inside the document the parsed text has the length
    of the region less the offset, and never less than nothing; a negative
    offset keeps that many characters from the end of the region.  When
    the offset covers the whole region the re-parse ends in the empty
    state without asking a parser. *)
Theorem tracked_text_length (self : RegionTracker.t) (view : sublime.View) :
  let a := sublime.a (RegionTracker.region self) in
  let b := sublime.b (RegionTracker.region self) in
  let skip := RegionTracker.offset self in
  0 ≤ a → a ≤ b → b ≤ sublime.size view →
  py.len (RegionTracker.tracked_text self view)
    = (if skip <? 0 then Z.min (- skip) (b - a) else Z.max 0 (b - a - skip))
  ∧ (b - a ≤ skip →
     RegionTracker.update_abbreviation self view
       = (py.Return tt,
          RegionTracker.set_abbreviation
            (RegionTracker.resolve_config self view) AbbrNone)).
Proof.
  intros a b skip Ha Hab Hb.
  assert (Hlen : py.len (RegionTracker.tracked_text self view)
    = (if skip <? 0 then Z.min (- skip) (b - a) else Z.max 0 (b - a - skip))).
  { unfold RegionTracker.tracked_text. fold skip.
    destruct (Z.eqb_spec skip 0) as [Hzero|Hskip].
    - rewrite len_substr by done. fold a b.
      destruct (Z.ltb_spec skip 0); lia.
    - rewrite len_slice_from, len_substr by done. done. }
  split; [done|]. intros Hcover.
  apply update_abbreviation_empty. apply nonempty_len. rewrite Hlen.
  destruct (Z.ltb_spec skip 0); lia.
Qed.

End tracked_text_facts.

Lemma tracked_text_length_witness :
  py.len
    (RegionTracker.tracked_text
       (RegionTracker.set_offset (RegionTracker.init 2 7 9 false) 2)
       (demo.view_of "ab!!divcd" 7))
  = 3
  ∧ RegionTracker.update_abbreviation (collab := demo.collaborators true)
      (RegionTracker.set_offset (RegionTracker.init 2 7 9 false) 5)
      (demo.view_of "ab!!divcd" 7)
    = (py.Return tt,
       RegionTracker.set_abbreviation
         (RegionTracker.resolve_config (collab := demo.collaborators true)
            (RegionTracker.set_offset (RegionTracker.init 2 7 9 false) 5)
            (demo.view_of "ab!!divcd" 7))
         AbbrNone).
Proof.
  split.
  - destruct (tracked_text_length (collab := demo.collaborators true)
                (RegionTracker.set_offset (RegionTracker.init 2 7 9 false) 2)
                (demo.view_of "ab!!divcd" 7)) as [Hlen _];
      [vm_compute; discriminate..|].
    etrans; [exact Hlen|]. reflexivity.
  - destruct (tracked_text_length (collab := demo.collaborators true)
                (RegionTracker.set_offset (RegionTracker.init 2 7 9 false) 5)
                (demo.view_of "ab!!divcd" 7)) as [_ Hempty];
      [vm_compute; discriminate..|].
    apply Hempty. vm_compute. discriminate.
Defined.

(** ** Re-parsing again *)

Section reparse_facts.
Context {collab : Collaborators}.

Lemma tracked_text_set_abbreviation (self : RegionTracker.t)
    (view : sublime.View) (data : abbreviation_data) :
  RegionTracker.tracked_text
    (RegionTracker.set_abbreviation
       (RegionTracker.resolve_config self view) data) view
  = RegionTracker.tracked_text self view.
Proof.
  unfold RegionTracker.tracked_text, RegionTracker.resolve_config.
  by destruct (RegionTracker.config_truthy (RegionTracker.config self)).
Qed.

(** Once resolved, the options are not resolved to anything else. *)
Lemma resolve_config_settled (self : RegionTracker.t) (view : sublime.View)
    (data : abbreviation_data) :
  RegionTracker.resolve_config
    (RegionTracker.set_abbreviation
       (RegionTracker.resolve_config self view) data) view
  = RegionTracker.set_abbreviation
      (RegionTracker.resolve_config self view) data.
Proof.
  unfold RegionTracker.resolve_config.
  destruct (RegionTracker.config_truthy (RegionTracker.config self)) eqn:Hc;
    simpl.
  - by rewrite Hc.
  - by match goal with
       | |- (if negb ?c then _ else _) = _ => destruct c
       end.
Qed.

(** X4. Re-parsing a second time over the same view gives the state and
    the outcome of the first re-parse, the resolver, the parsers and the
    expansion being functions of their arguments. *)
Theorem update_abbreviation_idempotent (self : RegionTracker.t)
    (view : sublime.View) :
  RegionTracker.update_abbreviation
    (RegionTracker.update_abbreviation self view).2 view
  = RegionTracker.update_abbreviation self view.
Proof.
  assert (Hstep : ∀ data : abbreviation_data,
    RegionTracker.update_abbreviation
      (RegionTracker.set_abbreviation
         (RegionTracker.resolve_config self view) data) view
    = RegionTracker.update_abbreviation self view).
  { intros data. unfold RegionTracker.update_abbreviation at 1.
    rewrite tracked_text_set_abbreviation, resolve_config_settled.
    reflexivity. }
  destruct (py.nonempty (RegionTracker.tracked_text self view)) eqn:Htext.
  - rewrite (update_abbreviation_parse self view Htext) at 1. simpl.
    destruct (RegionTracker.parse_and_expand _ _) as [[simple preview]|e];
      simpl; [apply Hstep|].
    destruct (scanner_failure e) as [[message pos]|]; simpl; apply Hstep.
  - rewrite (update_abbreviation_empty self view Htext) at 1. apply Hstep.
Qed.

End reparse_facts.

(** ** Showing and hiding, further *)

Section preview_facts.
Context {collab : Collaborators}.

(** [show_preview] in one piece: nothing when previews are off, the
    exception of the target or of the content, the teardown when there is
    no content, and the drawing otherwise. *)
Lemma show_preview_unfold (self : RegionTracker.t) (view : sublime.View)
    (as_phantom : option bool) :
  RegionTracker.show_preview self view as_phantom =
    if negb RegionTracker.previews_enabled then (py.Return tt, (self, view))
    else
      match RegionTracker.default_as_phantom self as_phantom with
      | py.Raise e => (py.Raise e, (self, view))
      | py.Return flag =>
          match RegionTracker.content_of self flag with
          | py.Raise e => (py.Raise e, (self, view))
          | py.Return content =>
              if negb (RegionTracker.content_truthy content)
              then (py.Return tt, RegionTracker.hide_preview self view)
              else (py.Return tt,
                    draw_preview self view flag (default EmptyString content))
          end
      end.
Proof.
  unfold RegionTracker.show_preview, draw_preview.
  destruct (negb RegionTracker.previews_enabled); [done|].
  destruct (RegionTracker.default_as_phantom self as_phantom) as [flag|e];
    [|done].
  destruct (RegionTracker.content_of self flag) as [content|e]; [|done].
  destruct (negb (RegionTracker.content_truthy content)); [done|].
  by destruct flag.
Qed.

Lemma hide_preview_twice (self : RegionTracker.t) (view : sublime.View) :
  RegionTracker.hide_preview (RegionTracker.hide_preview self view).1
    (RegionTracker.hide_preview self view).2
  = RegionTracker.hide_preview self view.
Proof.
  destruct (hide_preview_flags self view) as [Hpop Hph].
  destruct (RegionTracker.hide_preview self view) as [self' view'].
  by apply hide_preview_cleared.
Qed.

(** What decides about the drawing does not depend on the preview
    handles. *)
Lemma decision_ignores_handles (self self' : RegionTracker.t)
    (as_phantom : option bool) (flag : bool) :
  RegionTracker.config self' = RegionTracker.config self →
  RegionTracker.abbreviation self' = RegionTracker.abbreviation self →
  RegionTracker.forced self' = RegionTracker.forced self →
  RegionTracker.default_as_phantom self' as_phantom
    = RegionTracker.default_as_phantom self as_phantom
  ∧ RegionTracker.content_of self' flag = RegionTracker.content_of self flag.
Proof.
  unfold RegionTracker.default_as_phantom, RegionTracker.content_of,
    RegionTracker.preview_content.
  by intros -> -> ->.
Qed.

Lemma hide_preview_fields (self : RegionTracker.t) (view : sublime.View) :
  let self' := (RegionTracker.hide_preview self view).1 in
  RegionTracker.config self' = RegionTracker.config self
  ∧ RegionTracker.abbreviation self' = RegionTracker.abbreviation self
  ∧ RegionTracker.forced self' = RegionTracker.forced self
  ∧ RegionTracker.region self' = RegionTracker.region self
  ∧ RegionTracker.forced_indicator self'
    = RegionTracker.forced_indicator self.
Proof.
  unfold RegionTracker.hide_preview.
  by destruct self as [? ? ? ? ? ? ? ? [] [?|]].
Qed.

Lemma draw_preview_twice (self : RegionTracker.t) (view : sublime.View)
    (flag : bool) (content : string) :
  draw_preview (draw_preview self view flag content).1
    (draw_preview self view flag content).2 flag content
  = draw_preview self view flag content.
Proof.
  unfold draw_preview. destruct flag; simpl; [|done].
  unfold sublime.update, sublime.with_phantoms. simpl.
  by rewrite insert_insert_eq.
Qed.

(** X5. Showing the preview a second time, with the same argument, gives
    the state and the outcome of showing it once. *)
Theorem show_preview_idempotent (self : RegionTracker.t)
    (view : sublime.View) (as_phantom : option bool) :
  RegionTracker.show_preview
    (RegionTracker.show_preview self view as_phantom).2.1
    (RegionTracker.show_preview self view as_phantom).2.2 as_phantom
  = RegionTracker.show_preview self view as_phantom.
Proof.
  rewrite (show_preview_unfold self view).
  destruct (negb RegionTracker.previews_enabled) eqn:Hoff; simpl.
  { by rewrite show_preview_unfold, Hoff. }
  destruct (RegionTracker.default_as_phantom self as_phantom) as [flag|e]
    eqn:Hflag; simpl.
  2: { by rewrite show_preview_unfold, Hoff, Hflag. }
  destruct (RegionTracker.content_of self flag) as [content|e] eqn:Hcontent;
    simpl.
  2: { by rewrite show_preview_unfold, Hoff, Hflag, Hcontent. }
  destruct (negb (RegionTracker.content_truthy content)) eqn:Hnone; simpl.
  - destruct (hide_preview_fields self view) as (Hc & Ha & Hf & _).
    destruct (decision_ignores_handles self
                (RegionTracker.hide_preview self view).1 as_phantom flag
                Hc Ha Hf) as [Hflag' Hcontent'].
    rewrite show_preview_unfold, Hoff, Hflag', Hflag, Hcontent', Hcontent,
      Hnone.
    by rewrite hide_preview_twice.
  - assert (Hfields :
      RegionTracker.config
        (draw_preview self view flag (default EmptyString content)).1
        = RegionTracker.config self
      ∧ RegionTracker.abbreviation
          (draw_preview self view flag (default EmptyString content)).1
        = RegionTracker.abbreviation self
      ∧ RegionTracker.forced
          (draw_preview self view flag (default EmptyString content)).1
        = RegionTracker.forced self).
    { unfold draw_preview. by destruct flag. }
    destruct Hfields as (Hc & Ha & Hf).
    destruct (decision_ignores_handles self _ as_phantom flag Hc Ha Hf)
      as [Hflag' Hcontent'].
    rewrite show_preview_unfold, Hoff, Hflag', Hflag, Hcontent', Hcontent,
      Hnone.
    by rewrite draw_preview_twice.
Qed.

End preview_facts.

Section handle_facts.
Context {collab : Collaborators}.

Lemma update_abbreviation_handles (self : RegionTracker.t)
    (view : sublime.View) :
  let self' := (RegionTracker.update_abbreviation self view).2 in
  RegionTracker.forced_indicator self' = RegionTracker.forced_indicator self
  ∧ RegionTracker._phantom_preview self' = RegionTracker._phantom_preview self
  ∧ RegionTracker._has_popup_preview self'
    = RegionTracker._has_popup_preview self
  ∧ RegionTracker.offset self' = RegionTracker.offset self.
Proof.
  assert (Hres : ∀ data : abbreviation_data,
    let self' :=
      RegionTracker.set_abbreviation
        (RegionTracker.resolve_config self view) data in
    RegionTracker.forced_indicator self' = RegionTracker.forced_indicator self
    ∧ RegionTracker._phantom_preview self'
      = RegionTracker._phantom_preview self
    ∧ RegionTracker._has_popup_preview self'
      = RegionTracker._has_popup_preview self
    ∧ RegionTracker.offset self' = RegionTracker.offset self).
  { intros data. unfold RegionTracker.resolve_config.
    by destruct (RegionTracker.config_truthy (RegionTracker.config self)). }
  destruct (py.nonempty (RegionTracker.tracked_text self view)) eqn:Htext.
  - rewrite (update_abbreviation_parse self view Htext). simpl.
    destruct (RegionTracker.parse_and_expand _ _) as [[simple preview]|e];
      simpl.
    + apply (Hres (AbbrParsed (RegionTracker.tracked_text self view)
                     simple preview)).
    + destruct (scanner_failure e) as [[message pos]|]; simpl.
      * apply (Hres (AbbrError (RegionTracker.tracked_text self view)
                       message pos (RegionTracker.pointer_of pos))).
      * apply (Hres AbbrNone).
  - rewrite (update_abbreviation_empty self view Htext).
    apply (Hres AbbrNone).
Qed.

(** X6. The phantom sets of a tracker stay bound to the keys the code
    gives them: a new tracker has none, and re-parsing, marking,
    unmarking, showing and hiding the preview keep the forced indicator
    under the region key and the preview under the preview key. *)
Theorem handles_keep_their_keys (self : RegionTracker.t)
    (view : sublime.View) (as_phantom : option bool)
    (start pos length : Z) (forced : bool) :
  well_keyed (RegionTracker.init start pos length forced)
  ∧ (well_keyed self →
     well_keyed (RegionTracker.update_abbreviation self view).2
     ∧ well_keyed (RegionTracker.mark self view).1
     ∧ well_keyed (RegionTracker.unmark self view).1
     ∧ well_keyed (RegionTracker.hide_preview self view).1
     ∧ well_keyed (RegionTracker.show_preview self view as_phantom).2.1).
Proof.
  split; [by split|]. intros [Hind Hprev].
  assert (Hhide : well_keyed (RegionTracker.hide_preview self view).1).
  { destruct (hide_preview_fields self view) as (_ & _ & _ & _ & Hfi).
    destruct (hide_preview_flags self view) as [_ Hnone].
    split; intros ps Hps.
    - apply Hind. by rewrite <- Hfi.
    - by rewrite Hnone in Hps. }
  split; [|split; [|split; [|split]]].
  - destruct (update_abbreviation_handles self view) as (Hfi & Hpp & _).
    split; intros ps Hps.
    + apply Hind. by rewrite <- Hfi.
    + apply Hprev. by rewrite <- Hpp.
  - unfold RegionTracker.mark. destruct (RegionTracker.forced self);
      [|by split].
    split; simpl; [|done]. intros ps [= <-].
    destruct (RegionTracker.forced_indicator self) as [ind|] eqn:Hfi;
      [by apply Hind|done].
  - unfold RegionTracker.unmark.
    destruct (hide_preview_fields self
                (sublime.erase_phantoms
                   (sublime.erase_regions view ABBR_REGION_ID)
                   ABBR_REGION_ID)) as (_ & _ & _ & _ & Hfi).
    destruct (hide_preview_flags self
                (sublime.erase_phantoms
                   (sublime.erase_regions view ABBR_REGION_ID)
                   ABBR_REGION_ID)) as [_ Hnone].
    split; intros ps Hps.
    + apply Hind. by rewrite <- Hfi.
    + by rewrite Hnone in Hps.
  - done.
  - rewrite show_preview_unfold.
    destruct (negb RegionTracker.previews_enabled); [by split|].
    destruct (RegionTracker.default_as_phantom self as_phantom) as [flag|e];
      [|by split].
    destruct (RegionTracker.content_of self flag) as [content|e];
      [|by split].
    destruct (negb (RegionTracker.content_truthy content)); [done|].
    unfold draw_preview. destruct flag; simpl; [|by split].
    split; simpl; [done|]. intros ps [= <-].
    destruct (RegionTracker._phantom_preview self) as [prev|] eqn:Hpp;
      [by apply Hprev|done].
Qed.

(** X7. Showing the preview never touches what the tracker tracks nor the
    document: span, forced flag, options, abbreviation record, offset and
    caret snapshot stay, and so do the text, the caret and the region
    decorations of the view, and every phantom but the preview's. *)
Theorem show_preview_frame (self : RegionTracker.t) (view : sublime.View)
    (as_phantom : option bool) :
  well_keyed self →
  let shown := RegionTracker.show_preview self view as_phantom in
  RegionTracker.region shown.2.1 = RegionTracker.region self
  ∧ RegionTracker.forced shown.2.1 = RegionTracker.forced self
  ∧ RegionTracker.config shown.2.1 = RegionTracker.config self
  ∧ RegionTracker.abbreviation shown.2.1 = RegionTracker.abbreviation self
  ∧ RegionTracker.offset shown.2.1 = RegionTracker.offset self
  ∧ RegionTracker.last_pos shown.2.1 = RegionTracker.last_pos self
  ∧ RegionTracker.last_length shown.2.1 = RegionTracker.last_length self
  ∧ RegionTracker.forced_indicator shown.2.1
    = RegionTracker.forced_indicator self
  ∧ sublime.id shown.2.2 = sublime.id view
  ∧ sublime.text shown.2.2 = sublime.text view
  ∧ sublime.caret shown.2.2 = sublime.caret view
  ∧ sublime.regions shown.2.2 = sublime.regions view
  ∧ (∀ k : string,
       k ≠ ABBR_PREVIEW_ID →
       sublime.phantoms shown.2.2 !! k = sublime.phantoms view !! k).
Proof.
  intros [_ Hprev] shown. unfold shown. rewrite show_preview_unfold.
  destruct (negb RegionTracker.previews_enabled); [done|].
  destruct (RegionTracker.default_as_phantom self as_phantom) as [flag|e];
    [|done].
  destruct (RegionTracker.content_of self flag) as [content|e]; [|done].
  destruct (negb (RegionTracker.content_truthy content)).
  - simpl. unfold RegionTracker.hide_preview.
    destruct self as [? ? ? ? ? ? ? ? [] [?|]]; simpl;
      repeat split; try done; intros k Hk; by rewrite lookup_delete_ne.
  - unfold draw_preview. destruct flag; simpl; [|done].
    repeat split; try done. intros k Hk.
    rewrite lookup_insert_ne; [done|].
    destruct (RegionTracker._phantom_preview self) as [ps|];
      [rewrite (Hprev ps eq_refl)|]; done.
Qed.

End handle_facts.

Lemma handles_keep_their_keys_witness :
  well_keyed
    (RegionTracker.show_preview (collab := demo.collaborators true)
       (demo.parsed_tracker 3 true demo.markup_options
          (AbbrParsed "div" true "<div></div>"))
       (demo.view_of "div" 3) (Some true)).2.1.
Proof.
  destruct (handles_keep_their_keys (collab := demo.collaborators true)
              (demo.parsed_tracker 3 true demo.markup_options
                 (AbbrParsed "div" true "<div></div>"))
              (demo.view_of "div" 3) (Some true) 0 3 3 true)
    as (_ & Hkeep).
  apply Hkeep. split; intros ps Hps; discriminate.
Defined.

Lemma show_preview_frame_witness :
  sublime.regions
    (RegionTracker.show_preview (collab := demo.collaborators true)
       (demo.parsed_tracker 5 true demo.markup_options
          (AbbrParsed "ul>li" false "<div></div>"))
       (RegionTracker.mark (collab := demo.collaborators true)
          (demo.parsed_tracker 5 true demo.markup_options
             (AbbrParsed "ul>li" false "<div></div>"))
          (demo.view_of "ul>li" 5)).2 None).2.2
  = sublime.regions
      (RegionTracker.mark (collab := demo.collaborators true)
         (demo.parsed_tracker 5 true demo.markup_options
            (AbbrParsed "ul>li" false "<div></div>"))
         (demo.view_of "ul>li" 5)).2.
Proof.
  destruct (show_preview_frame (collab := demo.collaborators true)
              (demo.parsed_tracker 5 true demo.markup_options
                 (AbbrParsed "ul>li" false "<div></div>"))
              (RegionTracker.mark (collab := demo.collaborators true)
                 (demo.parsed_tracker 5 true demo.markup_options
                    (AbbrParsed "ul>li" false "<div></div>"))
                 (demo.view_of "ul>li" 5)).2 None)
    as (_ & _ & _ & _ & _ & _ & _ & _ & _ & _ & _ & Hregions & _).
  - split; intros ps Hps; discriminate.
  - exact Hregions.
Defined.

Section ownership_facts.
Context {collab : Collaborators}.

Lemma mark_previews (self : RegionTracker.t) (view : sublime.View) :
  well_keyed self →
  sublime.popup (RegionTracker.mark self view).2 = sublime.popup view
  ∧ sublime.phantoms (RegionTracker.mark self view).2 !! ABBR_PREVIEW_ID
    = sublime.phantoms view !! ABBR_PREVIEW_ID
  ∧ RegionTracker._has_popup_preview (RegionTracker.mark self view).1
    = RegionTracker._has_popup_preview self
  ∧ RegionTracker._phantom_preview (RegionTracker.mark self view).1
    = RegionTracker._phantom_preview self.
Proof.
  intros [Hind _]. unfold RegionTracker.mark.
  destruct (RegionTracker.forced self); [|done]. simpl.
  repeat split. rewrite lookup_insert_ne; [done|].
  destruct (RegionTracker.forced_indicator self) as [ps|];
    [rewrite (Hind ps eq_refl)|]; done.
Qed.

(** X8. A tracker that owns the previews of its view (a popup only with
    its popup flag set, preview phantoms only with its phantom set at
    hand) still owns them after showing or hiding the preview, after
    marking and after re-parsing. *)
Theorem previews_stay_owned (self : RegionTracker.t) (view : sublime.View)
    (as_phantom : option bool) :
  well_keyed self →
  owns_previews self view →
  owns_previews (RegionTracker.show_preview self view as_phantom).2.1
    (RegionTracker.show_preview self view as_phantom).2.2
  ∧ owns_previews (RegionTracker.hide_preview self view).1
      (RegionTracker.hide_preview self view).2
  ∧ owns_previews (RegionTracker.mark self view).1
      (RegionTracker.mark self view).2
  ∧ owns_previews (RegionTracker.update_abbreviation self view).2 view.
Proof.
  intros Hkeys Howns.
  assert (Hhide :
    owns_previews (RegionTracker.hide_preview self view).1
      (RegionTracker.hide_preview self view).2).
  { destruct Howns as [Hpop Hph]. unfold owns_previews in *.
    unfold RegionTracker.hide_preview.
    destruct self as [? ? ? ? ? ? ? ? [] [ps|]]; simpl in *; split;
      try done; rewrite lookup_delete_eq; by intros [? [=]]. }
  split; [|split; [done|split]].
  - rewrite show_preview_unfold.
    destruct (negb RegionTracker.previews_enabled); [done|].
    destruct (RegionTracker.default_as_phantom self as_phantom) as [flag|e];
      [|done].
    destruct (RegionTracker.content_of self flag) as [content|e]; [|done].
    destruct (negb (RegionTracker.content_truthy content)); [done|].
    destruct Howns as [Hpop Hph]. unfold draw_preview.
    destruct flag; simpl; split; simpl; done.
  - destruct (mark_previews self view Hkeys) as (Hp & Hph & Hf & Hs).
    destruct Howns as [Hpop Hphs]. split.
    + rewrite Hp, Hf. exact Hpop.
    + rewrite Hph, Hs. exact Hphs.
  - destruct (update_abbreviation_handles self view) as (_ & Hs & Hf & _).
    destruct Howns as [Hpop Hphs]. split.
    + rewrite Hf. exact Hpop.
    + rewrite Hs. exact Hphs.
Qed.

(** X9. When no preview is shown, hiding the preview right after showing
    it gives back the tracker and the view as they were, whatever
    [show_preview] did: drew a popup, drew a phantom, tore down, raised or
    returned at once. *)
Theorem hide_undoes_show (self : RegionTracker.t) (view : sublime.View)
    (as_phantom : option bool) :
  no_preview_shown self view →
  RegionTracker.hide_preview
    (RegionTracker.show_preview self view as_phantom).2.1
    (RegionTracker.show_preview self view as_phantom).2.2
  = (self, view).
Proof.
  intros (Hpop & Hph & Hflag & Hset).
  assert (Hsame : RegionTracker.hide_preview self view = (self, view))
    by by apply hide_preview_cleared.
  rewrite show_preview_unfold.
  destruct (negb RegionTracker.previews_enabled); [done|].
  destruct (RegionTracker.default_as_phantom self as_phantom) as [flag|e];
    [|done].
  destruct (RegionTracker.content_of self flag) as [content|e]; [|done].
  destruct (negb (RegionTracker.content_truthy content)).
  - simpl. by rewrite Hsame.
  - destruct self as [lp ll rg fo cf ab fi off hp pp].
    destruct view as [vid txt car regs phs pop].
    simpl in Hpop, Hph, Hflag, Hset. subst hp pp pop.
    unfold draw_preview, RegionTracker.hide_preview.
    destruct flag; simpl; [|done].
    unfold sublime.erase_phantoms, sublime.update, sublime.with_phantoms.
    simpl. by rewrite delete_insert_id.
Qed.

End ownership_facts.

Lemma previews_stay_owned_witness :
  owns_previews
    (RegionTracker.show_preview (collab := demo.collaborators true)
       (demo.parsed_tracker 5 false demo.markup_options
          (AbbrParsed "ul>li" false "<div></div>"))
       (demo.view_of "ul>li" 5) None).2.1
    (RegionTracker.show_preview (collab := demo.collaborators true)
       (demo.parsed_tracker 5 false demo.markup_options
          (AbbrParsed "ul>li" false "<div></div>"))
       (demo.view_of "ul>li" 5) None).2.2.
Proof.
  destruct (previews_stay_owned (collab := demo.collaborators true)
              (demo.parsed_tracker 5 false demo.markup_options
                 (AbbrParsed "ul>li" false "<div></div>"))
              (demo.view_of "ul>li" 5) None) as [Hshow _].
  - split; intros ps Hps; discriminate.
  - split; intros [x Hx]; vm_compute in Hx; discriminate.
  - exact Hshow.
Defined.

Lemma hide_undoes_show_witness :
  RegionTracker.hide_preview
    (RegionTracker.show_preview (collab := demo.collaborators true)
       (demo.parsed_tracker 5 false demo.markup_options
          (AbbrParsed "ul>li" false "<div></div>"))
       (demo.view_of "ul>li" 5) None).2.1
    (RegionTracker.show_preview (collab := demo.collaborators true)
       (demo.parsed_tracker 5 false demo.markup_options
          (AbbrParsed "ul>li" false "<div></div>"))
       (demo.view_of "ul>li" 5) None).2.2
  = (demo.parsed_tracker 5 false demo.markup_options
       (AbbrParsed "ul>li" false "<div></div>"),
     demo.view_of "ul>li" 5).
Proof.
  apply (hide_undoes_show (collab := demo.collaborators true)).
  repeat split.
Defined.

(** ** Formatting *)

Lemma length_repeat_char (c : ascii) (n : nat) :
  String.length (py.repeat_char c n) = n.
Proof. induction n as [|n IH]; simpl; congruence. Qed.

Lemma all_chars_repeat_char (p : ascii → bool) (c : ascii) (n : nat) :
  p c = true → py.all_chars p (py.repeat_char c n) = true.
Proof. intros Hc. induction n as [|n IH]; simpl; [done|]. by rewrite Hc. Qed.

(** Where a text starts with no tab. *)
Lemma no_tab_no_match (rest : string) :
  (∀ (c : ascii) (r : string), rest = String c r → c ≠ py.tab) →
  re.match_here [re.Plus (Ascii.eqb py.tab)] rest = None.
Proof.
  intros Hrest. destruct rest as [|c r]; [done|].
  rewrite match_here_plus_cons.
  destruct (Ascii.eqb_spec py.tab c) as [<-|]; [|done].
  by destruct (Hrest py.tab r).
Qed.

(** X10. The indent of a line is the number of its leading tabs times the
    width: for a line made of [n] tabs and a rest that starts with no tab,
    [indent_size] is [n * width], also when there is no tab at all. *)
Theorem indent_size_counts_tabs (n width : nat) (rest : string) :
  (∀ (c : ascii) (r : string), rest = String c r → c ≠ py.tab) →
  render.indent_size (py.repeat_char py.tab n +:+ rest) width
    = (n * width)%nat.
Proof.
  intros Hrest. unfold render.indent_size, re.match_.
  destruct n as [|n].
  - push_append. simpl py.repeat_char. push_append.
    by rewrite no_tab_no_match.
  - rewrite (match_here_plus_greedy (Ascii.eqb py.tab) []
               (py.repeat_char py.tab (S n)) rest rest);
      [|done|by apply all_chars_repeat_char|by apply no_tab_no_match|done].
    rewrite length_append, length_repeat_char. f_equal. lia.
Qed.

Lemma indent_size_counts_tabs_witness :
  render.indent_size
    (py.repeat_char py.tab 2 +:+ "<li></li>") 20 = 40%nat
  ∧ render.indent_size (py.repeat_char py.tab 0 +:+ "<ul>") 20 = 0%nat.
Proof.
  split.
  - apply (indent_size_counts_tabs 2 20 "<li></li>").
    intros c r [= <- _]. vm_compute. discriminate.
  - apply (indent_size_counts_tabs 0 20 "<ul>").
    intros c r [= <- _]. vm_compute. discriminate.
Defined.

Lemma splitlines_from_nil (cur s : string) :
  py.splitlines_from cur s = [] ↔ cur = EmptyString ∧ s = EmptyString.
Proof.
  revert cur. induction s as [|c s IH]; intros cur; simpl.
  - destruct cur; simpl; split; try done. by intros [? ?].
  - split; [|by intros [? ?]]. intros Hnil. exfalso.
    destruct (py.char_islinebreak c).
    + destruct (py.ord c =? 13); [|done].
      destruct s as [|c' s']; [done|]. by destruct (py.ord c' =? 10).
    + apply IH in Hnil as [Hcur _]. by destruct cur.
Qed.

Lemma join_nonempty (sep x : string) (l : list string) :
  py.nonempty x = true → py.nonempty (py.join sep (x :: l)) = true.
Proof. destruct x as [|c x]; [done|]. intros _. by destruct l. Qed.

Lemma formatted_lines_empty_iff (class_attr text : string) :
  py.join py.nl (map (render.format_line class_attr) (py.splitlines text))
    = EmptyString
  ↔ text = EmptyString.
Proof.
  unfold py.splitlines. split; [|by intros ->]. intros Hempty.
  destruct (py.splitlines_from EmptyString text) as [|line lines] eqn:Hlines.
  - by apply splitlines_from_nil in Hlines as [_ ->].
  - exfalso.
    pose proof (join_nonempty py.nl (render.format_line class_attr line)
                  (map (render.format_line class_attr) lines) eq_refl)
      as Hne.
    change (py.nonempty
              (py.join py.nl
                 (map (render.format_line class_attr) (line :: lines)))
            = true) in Hne.
    by rewrite Hempty in Hne.
Qed.

(** X11. A snippet is formatted to the empty string exactly when it is
    empty, whatever the class name: any text with a character in it gives
    at least one line of markup. *)
Theorem format_snippet_empty_iff (text : string)
    (class_name : option string) :
  render.format_snippet text class_name = EmptyString ↔ text = EmptyString.
Proof. unfold render.format_snippet. apply formatted_lines_empty_iff. Qed.

(** ** Escaping *)

Lemma replace_removes (c : ascii) (by_ s : string) :
  py.all_chars (λ y, negb (Ascii.eqb y c)) by_ = true →
  py.all_chars (λ y, negb (Ascii.eqb y c)) (html.replace c by_ s) = true.
Proof.
  intros Hby. induction s as [|x s IH]; [done|]. simpl.
  destruct (Ascii.eqb_spec x c) as [->|Hx].
  - by rewrite all_chars_append, Hby.
  - simpl. rewrite IH. by destruct (Ascii.eqb_spec x c).
Qed.

Lemma replace_passes (p : ascii → bool) (c : ascii) (by_ s : string) :
  py.all_chars p by_ = true → py.all_chars p s = true →
  py.all_chars p (html.replace c by_ s) = true.
Proof.
  intros Hby. induction s as [|x s IH]; [done|]. simpl.
  intros [Hx Hs]%andb_true_iff. destruct (Ascii.eqb x c).
  - rewrite all_chars_append, Hby. by apply IH.
  - simpl. rewrite Hx. by apply IH.
Qed.

Lemma all_chars_and (p q : ascii → bool) (s : string) :
  py.all_chars p s = true → py.all_chars q s = true →
  py.all_chars (λ c, p c && q c) s = true.
Proof.
  induction s as [|x s IH]; [done|]. simpl.
  intros [Hp Hs]%andb_true_iff [Hq Hs']%andb_true_iff.
  rewrite Hp, Hq. by apply IH.
Qed.

(** X12. The text [html.escape] returns holds no angle bracket, so the
    message of an error fragment, which goes through it, cannot open or
    close a tag of the fragment. *)
Theorem error_snippet_has_no_angle (message : string) :
  py.all_chars no_angle (html.escape message) = true
  ∧ py.all_chars no_angle (RegionTracker.error_snippet message) = true.
Proof.
  assert (Hescape : ∀ s : string,
    py.all_chars no_angle (html.escape s) = true).
  { intros s. unfold html.escape, no_angle. apply all_chars_and.
    - apply replace_passes; [done|]. by apply replace_removes.
    - by apply replace_removes. }
  split; [apply Hescape|]. unfold RegionTracker.error_snippet. apply Hescape.
Qed.

(** ** What is drawn for a parsed abbreviation *)

Section parsed_preview_facts.
Context {collab : Collaborators}.

Lemma config_truthy_lookup (d : dict) (k : string) (v : py.value) :
  d !! k = Some v → RegionTracker.config_truthy (Some d) = true.
Proof.
  intros Hk. unfold RegionTracker.config_truthy.
  rewrite bool_decide_eq_false_2; [done|].
  intros Hdom. apply (not_elem_of_empty (C := gset string) k).
  rewrite <- Hdom. apply elem_of_dom. by eexists.
Qed.

(** X13. For a parsed markup abbreviation (options with a type other than
    stylesheet and with a syntax) and previews enabled, the preview is
    drawn exactly when the tracker is forced, or the target is a phantom,
    or the abbreviation is not simple; it is then the expansion,
    highlighted for an HTML syntax and escaped otherwise, inside the
    markup-preview block.  Otherwise the previews are torn down. *)
Theorem show_preview_of_markup (self : RegionTracker.t)
    (view : sublime.View) (as_phantom : option bool) (flag simple : bool)
    (abbr preview : string) (d : dict) (ty syn : py.value) :
  RegionTracker.abbreviation self = AbbrParsed abbr simple preview →
  RegionTracker.config self = Some d →
  d !! "type" = Some ty → py.eq_str ty "stylesheet" = false →
  d !! "syntax" = Some syn →
  RegionTracker.previews_enabled = true →
  RegionTracker.default_as_phantom self as_phantom = py.Return flag →
  RegionTracker.show_preview self view as_phantom =
    if RegionTracker.forced self || flag || negb simple
    then (py.Return tt,
          draw_preview self view flag
            ("<div class=" +:+ py.dquote +:+ "markup-preview" +:+ py.dquote
             +:+ ">"
             +:+ render.format_snippet
                   (if is_html syn then highlight preview
                    else html.escape preview) None
             +:+ "</div>"))
    else (py.Return tt, RegionTracker.hide_preview self view).
Proof.
  intros Habbr Hcfg Hty Hmarkup Hsyn Hon Hflag.
  rewrite show_preview_unfold, Hon, Hflag. simpl.
  unfold RegionTracker.content_of. rewrite Habbr.
  destruct (RegionTracker.forced self || flag || negb simple); [|done].
  unfold RegionTracker.preview_content. rewrite Hcfg, Hty, Hmarkup, Hsyn.
  reflexivity.
Qed.

(** X14. For a parsed stylesheet abbreviation and no target given, the
    preview goes to a phantom whatever the forced flag and the
    classification, and it is drawn exactly when the expansion is not
    empty; an empty expansion tears the previews down. *)
Theorem show_preview_of_stylesheet (self : RegionTracker.t)
    (view : sublime.View) (simple : bool) (abbr preview : string)
    (d : dict) :
  RegionTracker.abbreviation self = AbbrParsed abbr simple preview →
  RegionTracker.config self = Some d →
  d !! "type" = Some (py.VStr "stylesheet") →
  RegionTracker.previews_enabled = true →
  RegionTracker.show_preview self view None =
    if py.nonempty preview
    then (py.Return tt,
          draw_preview self view true (render.format_snippet preview None))
    else (py.Return tt, RegionTracker.hide_preview self view).
Proof.
  intros Habbr Hcfg Hty Hon.
  rewrite show_preview_unfold, Hon. simpl.
  unfold RegionTracker.default_as_phantom.
  rewrite Hcfg, (config_truthy_lookup d "type" _ Hty), Hty. simpl.
  unfold RegionTracker.content_of. rewrite Habbr.
  rewrite orb_true_r. simpl.
  unfold RegionTracker.preview_content. rewrite Hcfg, Hty. simpl.
  destruct preview as [|c preview]; [done|]. simpl.
  destruct (render.format_snippet (String c preview) None) eqn:Hformat;
    [|done].
  unfold render.format_snippet in Hformat.
  by apply formatted_lines_empty_iff in Hformat.
Qed.

(** X15. Options without a type are parsed as markup by the re-parse, yet
    [show_preview] raises a key error on them, and nothing is drawn: when
    it has to default the target of non-empty options, and when it has to
    render a parsed abbreviation.  Markup options without a syntax raise
    likewise. *)
Theorem show_preview_missing_key (self : RegionTracker.t)
    (view : sublime.View) (d : dict) :
  RegionTracker.config self = Some d →
  RegionTracker.previews_enabled = true →
  (∀ text : string,
     d !! "type" = None →
     RegionTracker.parse_by_type text d
       = (parsed ← markup_parse text d;
          mret (inl parsed, is_simple_markup_abbreviation parsed)))
  ∧ (d !! "type" = None → RegionTracker.config_truthy (Some d) = true →
     RegionTracker.show_preview self view None
       = (py.Raise (py.KeyError "type"), (self, view)))
  ∧ (∀ (flag simple : bool) (abbr preview : string),
       d !! "type" = None →
       RegionTracker.abbreviation self = AbbrParsed abbr simple preview →
       RegionTracker.forced self || flag || negb simple = true →
       RegionTracker.show_preview self view (Some flag)
         = (py.Raise (py.KeyError "type"), (self, view)))
  ∧ (∀ (flag simple : bool) (abbr preview : string) (ty : py.value),
       d !! "type" = Some ty → py.eq_str ty "stylesheet" = false →
       d !! "syntax" = None →
       RegionTracker.abbreviation self = AbbrParsed abbr simple preview →
       RegionTracker.forced self || flag || negb simple = true →
       RegionTracker.show_preview self view (Some flag)
         = (py.Raise (py.KeyError "syntax"), (self, view))).
Proof.
  intros Hcfg Hon. split; [|split; [|split]].
  - intros text Hty. unfold RegionTracker.parse_by_type. by rewrite Hty.
  - intros Hty Htruthy. rewrite show_preview_unfold, Hon. simpl.
    unfold RegionTracker.default_as_phantom.
    by rewrite Hcfg, Htruthy, Hty.
  - intros flag simple abbr preview Hty Habbr Hshow.
    rewrite show_preview_unfold, Hon. simpl.
    unfold RegionTracker.content_of. rewrite Habbr, Hshow.
    unfold RegionTracker.preview_content. by rewrite Hcfg, Hty.
  - intros flag simple abbr preview ty Hty Hmarkup Hsyn Habbr Hshow.
    rewrite show_preview_unfold, Hon. simpl.
    unfold RegionTracker.content_of. rewrite Habbr, Hshow.
    unfold RegionTracker.preview_content.
    by rewrite Hcfg, Hty, Hmarkup, Hsyn.
Qed.

End parsed_preview_facts.

Lemma show_preview_of_markup_witness :
  RegionTracker.show_preview (collab := demo.collaborators true)
    (demo.parsed_tracker 5 false demo.markup_options
       (AbbrParsed "ul>li" false "<ul></ul>"))
    (demo.view_of "ul>li" 5) None
  = (py.Return tt,
     draw_preview (collab := demo.collaborators true)
       (demo.parsed_tracker 5 false demo.markup_options
          (AbbrParsed "ul>li" false "<ul></ul>"))
       (demo.view_of "ul>li" 5) false
       ("<div class=" +:+ py.dquote +:+ "markup-preview" +:+ py.dquote
        +:+ ">"
        +:+ render.format_snippet "<ul></ul>" None +:+ "</div>")).
Proof.
  apply (show_preview_of_markup (collab := demo.collaborators true)
           (demo.parsed_tracker 5 false demo.markup_options
              (AbbrParsed "ul>li" false "<ul></ul>"))
           (demo.view_of "ul>li" 5) None false false "ul>li" "<ul></ul>"
           demo.markup_options (py.VStr "markup") (py.VStr "html"));
    vm_compute; reflexivity.
Defined.

Lemma show_preview_of_stylesheet_witness :
  RegionTracker.show_preview (collab := demo.collaborators true)
    (demo.parsed_tracker 3 false demo.stylesheet_options
       (AbbrParsed "m10" true "m10: ;"))
    (demo.view_of "m10" 3) None
  = (py.Return tt,
     draw_preview (collab := demo.collaborators true)
       (demo.parsed_tracker 3 false demo.stylesheet_options
          (AbbrParsed "m10" true "m10: ;"))
       (demo.view_of "m10" 3) true (render.format_snippet "m10: ;" None)).
Proof.
  apply (show_preview_of_stylesheet (collab := demo.collaborators true)
           (demo.parsed_tracker 3 false demo.stylesheet_options
              (AbbrParsed "m10" true "m10: ;"))
           (demo.view_of "m10" 3) true "m10" "m10: ;"
           demo.stylesheet_options);
    vm_compute; reflexivity.
Defined.

Lemma show_preview_missing_key_witness :
  RegionTracker.update_abbreviation (collab := demo.collaborators true)
    (demo.tracker_over 3 false demo.untyped_options) (demo.view_of "div" 3)
  = (py.Return tt,
     demo.parsed_tracker 3 false demo.untyped_options
       (AbbrParsed "div" true "<div></div>"))
  ∧ RegionTracker.show_preview (collab := demo.collaborators true)
      (demo.parsed_tracker 3 false demo.untyped_options
         (AbbrParsed "div" true "<div></div>"))
      (demo.view_of "div" 3) None
    = (py.Raise (py.KeyError "type"),
       (demo.parsed_tracker 3 false demo.untyped_options
          (AbbrParsed "div" true "<div></div>"),
        demo.view_of "div" 3)).
Proof.
  split; [vm_compute; reflexivity|].
  destruct (show_preview_missing_key (collab := demo.collaborators true)
              (demo.parsed_tracker 3 false demo.untyped_options
                 (AbbrParsed "div" true "<div></div>"))
              (demo.view_of "div" 3) demo.untyped_options)
    as (_ & Hdefault & _);
    [reflexivity | vm_compute; reflexivity |].
  apply Hdefault; vm_compute; reflexivity.
Defined.

(** ** Marking *)

Section mark_facts.
Context {collab : Collaborators}.

(** X16. Marking draws one decoration under the region key, on the
    tracker's region, in the configured scope, in place of any earlier one.
    A forced tracker also gets its indicator, one phantom on the region; an
    unforced tracker is left as it is and no phantom is touched.  Marking
    again changes nothing, and marking never touches the text, the caret
    or the popup. *)
Theorem mark_draws_once (self : RegionTracker.t) (view : sublime.View) :
  well_keyed self →
  let marked := RegionTracker.mark self view in
  sublime.regions marked.2 !! ABBR_REGION_ID
    = Some
        (sublime.mkDecoration [RegionTracker.region self]
           (get_settings "marker_scope" (py.VStr "region.accent"))
           EmptyString
           [sublime.DRAW_SOLID_UNDERLINE; sublime.DRAW_NO_FILL;
            sublime.DRAW_NO_OUTLINE])
  ∧ (RegionTracker.forced self = true →
     sublime.phantoms marked.2 !! ABBR_REGION_ID
       = Some
           [sublime.mkPhantom (RegionTracker.region self)
              (render.forced_indicator "⋮>") sublime.LAYOUT_INLINE]
     ∧ is_Some (RegionTracker.forced_indicator marked.1))
  ∧ (RegionTracker.forced self = false →
     marked.1 = self ∧ sublime.phantoms marked.2 = sublime.phantoms view)
  ∧ RegionTracker.mark marked.1 marked.2 = marked
  ∧ sublime.text marked.2 = sublime.text view
  ∧ sublime.caret marked.2 = sublime.caret view
  ∧ sublime.popup marked.2 = sublime.popup view.
Proof.
  intros [Hind _] marked. unfold marked, RegionTracker.mark.
  destruct self as [lp ll rg fo cf ab fi off hp pp].
  destruct view as [vid txt car regs phs pop].
  unfold sublime.add_regions, sublime.erase_regions, sublime.update,
    sublime.with_regions, sublime.with_phantoms. simpl in *.
  destruct fo; simpl.
  - assert (Hset : ∃ ps : sublime.PhantomSet,
      match fi with
      | Some ps => ps
      | None => sublime.mkPhantomSet ABBR_REGION_ID
      end = ps ∧ sublime.key ps = ABBR_REGION_ID).
    { destruct fi as [ps|]; eexists; split; try done. by apply Hind. }
    destruct Hset as ([k] & -> & Hkey). simpl in Hkey. subst k. simpl.
    repeat split; try done.
    + apply lookup_insert_eq.
    + apply lookup_insert_eq.
    + by rewrite insert_insert_eq,
        (insert_delete_eq (<[ABBR_REGION_ID:=_]> _)), insert_insert_eq.
  - repeat split; try done.
    + apply lookup_insert_eq.
    + by rewrite (insert_delete_eq (<[ABBR_REGION_ID:=_]> _)),
        insert_insert_eq.
Qed.

End mark_facts.

Lemma mark_draws_once_witness :
  sublime.deco_regions
    <$> sublime.regions
          (RegionTracker.mark (collab := demo.collaborators true)
             (RegionTracker.init 2 5 7 true) (demo.view_of "ab123cd" 5)).2
        !! ABBR_REGION_ID
  = Some [sublime.mkRegion 2 5].
Proof.
  destruct (mark_draws_once (collab := demo.collaborators true)
              (RegionTracker.init 2 5 7 true) (demo.view_of "ab123cd" 5))
    as (Hdeco & _).
  - split; intros ps Hps; discriminate.
  - rewrite Hdeco. reflexivity.
Defined.

(** ** The registry, further *)

Section registry_facts.
Context {collab : Collaborators}.

Lemma stop_tracking_absent (cache : registry) (view : sublime.View)
    (edit : option sublime.Edit) :
  get_tracker cache view = None → stop_tracking cache view edit = (cache, view).
Proof. unfold get_tracker, stop_tracking. by intros ->. Qed.

(** X17. Stopping twice is stopping once: after [stop_tracking] the view
    has no tracker, and a second call, with or without an edit, changes
    neither the registry nor the view; in particular a second call never
    erases text. *)
Theorem stop_tracking_idempotent (cache : registry) (view : sublime.View)
    (edit edit' : option sublime.Edit) :
  stop_tracking (stop_tracking cache view edit).1
    (stop_tracking cache view edit).2 edit'
  = stop_tracking cache view edit.
Proof.
  rewrite stop_tracking_absent by apply stop_tracking_forgets.
  by destruct (stop_tracking cache view edit) as [cache' view'].
Qed.

(** The tracker [start_tracking] builds before it parses. *)
Lemma start_tracking_unfold (cache : registry) (view : sublime.View)
    (start pos : Z) (forced : bool) (config : option dict) (offset : Z) :
  let fresh :=
    RegionTracker.set_offset
      (RegionTracker.set_config
         (RegionTracker.init start pos (sublime.size view) forced) config)
      offset in
  start_tracking cache view start pos forced config offset =
    match (RegionTracker.update_abbreviation fresh view).1 with
    | py.Raise e => (py.Raise e, (cache, view))
    | py.Return _ =>
        let parsed := (RegionTracker.update_abbreviation fresh view).2 in
        (py.Return (RegionTracker.mark parsed view).1,
         (<[sublime.id view := (RegionTracker.mark parsed view).1]> cache,
          (RegionTracker.mark parsed view).2))
    end.
Proof.
  intros fresh. unfold start_tracking. fold fresh.
  destruct (RegionTracker.update_abbreviation fresh view) as [[u|e] parsed];
    simpl; [|done].
  destruct (mark_frame parsed view) as (_ & _ & Hid).
  destruct (RegionTracker.mark parsed view) as [marked view'].
  simpl in *. by rewrite Hid.
Qed.

(** X18. [start_tracking] installs its tracker for any [start] and [pos],
    without a test of the range: when the first re-parse returns, the view
    is tracked by the returned tracker, whose span is from [start] to
    [pos], whose caret snapshot is [pos] and whose length snapshot is the
    size of the view, and the span is decorated.  When the first re-parse
    raises, the registry and the view are left as they were. *)
Theorem start_tracking_installs (cache : registry) (view : sublime.View)
    (start pos : Z) (forced : bool) (config : option dict) (offset : Z) :
  let fresh :=
    RegionTracker.set_offset
      (RegionTracker.set_config
         (RegionTracker.init start pos (sublime.size view) forced) config)
      offset in
  let started := start_tracking cache view start pos forced config offset in
  match (RegionTracker.update_abbreviation fresh view).1 with
  | py.Raise e => started = (py.Raise e, (cache, view))
  | py.Return _ =>
      ∃ tracker : RegionTracker.t,
        started.1 = py.Return tracker
        ∧ get_tracker started.2.1 started.2.2 = Some tracker
        ∧ RegionTracker.region tracker = sublime.mkRegion start pos
        ∧ RegionTracker.last_pos tracker = pos
        ∧ RegionTracker.last_length tracker = sublime.size view
        ∧ RegionTracker.forced tracker = forced
        ∧ RegionTracker.offset tracker = offset
        ∧ RegionTracker.abbreviation tracker
          = RegionTracker.abbreviation
              (RegionTracker.update_abbreviation fresh view).2
        ∧ sublime.deco_regions
            <$> sublime.regions started.2.2 !! ABBR_REGION_ID
          = Some [sublime.mkRegion start pos]
  end.
Proof.
  intros fresh started. unfold started.
  rewrite start_tracking_unfold. fold fresh.
  destruct (update_abbreviation_frame fresh view) as (Hr & Hf & Hlp & Hll).
  destruct (update_abbreviation_handles fresh view) as (_ & _ & _ & Hoff).
  destruct (RegionTracker.update_abbreviation fresh view) as [[u|e] parsed];
    simpl in *; [|done].
  exists (RegionTracker.mark parsed view).1.
  destruct (mark_frame parsed view) as (Hf' & Hr' & Hid).
  split; [done|]. split.
  { unfold get_tracker. rewrite Hid. apply lookup_insert_eq. }
  unfold RegionTracker.mark in *.
  destruct (RegionTracker.forced parsed) eqn:Hforced; simpl in *;
    rewrite ?lookup_insert_eq; simpl;
    rewrite ?Hr, ?Hlp, ?Hll, ?Hoff; subst forced; done.
Qed.

End registry_facts.

Section lifecycle_facts.
Context {collab : Collaborators}.

(** A tracker that [start_tracking] returns has no preview handle yet, and
    starting leaves the popup and the preview phantoms of the view. *)
Lemma start_tracking_previews (cache : registry) (view : sublime.View)
    (start pos : Z) (forced : bool) (config : option dict) (offset : Z)
    (tracker : RegionTracker.t) :
  (start_tracking cache view start pos forced config offset).1
    = py.Return tracker →
  let view' :=
    (start_tracking cache view start pos forced config offset).2.2 in
  RegionTracker._has_popup_preview tracker = false
  ∧ RegionTracker._phantom_preview tracker = None
  ∧ well_keyed tracker
  ∧ sublime.popup view' = sublime.popup view
  ∧ sublime.phantoms view' !! ABBR_PREVIEW_ID
    = sublime.phantoms view !! ABBR_PREVIEW_ID.
Proof.
  rewrite start_tracking_unfold.
  set (fresh :=
    RegionTracker.set_offset
      (RegionTracker.set_config
         (RegionTracker.init start pos (sublime.size view) forced) config)
      offset).
  assert (Hfresh : well_keyed fresh) by by split.
  destruct (update_abbreviation_handles fresh view) as (Hfi & Hpp & Hhp & _).
  assert (Hparsed :
    well_keyed (RegionTracker.update_abbreviation fresh view).2).
  { destruct Hfresh as [Hind Hprev]. split; intros ps Hps.
    - apply Hind. by rewrite <- Hfi.
    - apply Hprev. by rewrite <- Hpp. }
  destruct (RegionTracker.update_abbreviation fresh view) as [[u|e] parsed];
    simpl in *; [|done].
  intros [= <-].
  destruct (mark_previews parsed view Hparsed) as (Hp & Hph & Hf & Hs).
  rewrite Hf, Hs, Hhp, Hpp. repeat split; try done.
  - unfold RegionTracker.mark. destruct (RegionTracker.forced parsed);
      simpl; [|apply Hparsed].
    intros ps [= <-]. rewrite Hfi. done.
  - intros ps. rewrite Hs, Hpp. done.
Qed.

(** X19. Starting and then stopping without an edit is a round trip: when
    the view is neither tracked nor marked, [stop_tracking] after a
    [start_tracking] that returned gives back the registry and the view as
    they were before the start. *)
Theorem stop_undoes_start (cache : registry) (view : sublime.View)
    (start pos : Z) (forced : bool) (config : option dict) (offset : Z)
    (tracker : RegionTracker.t) :
  get_tracker cache view = None →
  sublime.regions view !! ABBR_REGION_ID = None →
  sublime.phantoms view !! ABBR_REGION_ID = None →
  (start_tracking cache view start pos forced config offset).1
    = py.Return tracker →
  stop_tracking
    (start_tracking cache view start pos forced config offset).2.1
    (start_tracking cache view start pos forced config offset).2.2 None
  = (cache, view).
Proof.
  intros Hnone Hregs Hphs. rewrite start_tracking_unfold.
  set (fresh :=
    RegionTracker.set_offset
      (RegionTracker.set_config
         (RegionTracker.init start pos (sublime.size view) forced) config)
      offset).
  destruct (update_abbreviation_handles fresh view) as (Hfi & Hpp & Hhp & _).
  destruct (RegionTracker.update_abbreviation fresh view) as [[u|e] parsed];
    simpl in *; [|done].
  intros _.
  destruct (mark_frame parsed view) as (_ & _ & Hid).
  rewrite (stop_tracking_unfold _ _ None (RegionTracker.mark parsed view).1)
    by (unfold get_tracker; rewrite Hid; apply lookup_insert_eq).
  rewrite andb_false_r, Hid.
  unfold get_tracker in Hnone. rewrite delete_insert_id by done.
  f_equal. unfold RegionTracker.unmark.
  rewrite hide_preview_cleared;
    [|unfold RegionTracker.mark; by destruct (RegionTracker.forced parsed)..].
  simpl. unfold RegionTracker.mark. rewrite Hfi.
  destruct view as [vid txt car regs phs pop]. simpl in Hregs, Hphs.
  unfold sublime.erase_phantoms, sublime.erase_regions, sublime.add_regions,
    sublime.update, sublime.with_regions, sublime.with_phantoms.
  destruct (RegionTracker.forced parsed); simpl.
  - by rewrite insert_delete_eq, !delete_insert_id by done.
  - by rewrite insert_delete_eq, delete_insert_id, delete_id by done.
Qed.

(** X20. [start_tracking] takes over a view without unmarking what was
    there: the popup and the preview phantoms of the view stay, and the new
    tracker does not know of them, so stopping the new tracker leaves the
    popup of the old one on the screen. *)
Theorem start_tracking_leaves_previews (cache : registry)
    (view : sublime.View) (start pos : Z) (forced : bool)
    (config : option dict) (offset : Z) (tracker : RegionTracker.t)
    (edit : option sublime.Edit) :
  let started := start_tracking cache view start pos forced config offset in
  started.1 = py.Return tracker →
  sublime.popup started.2.2 = sublime.popup view
  ∧ sublime.phantoms started.2.2 !! ABBR_PREVIEW_ID
    = sublime.phantoms view !! ABBR_PREVIEW_ID
  ∧ RegionTracker._has_popup_preview tracker = false
  ∧ RegionTracker._phantom_preview tracker = None
  ∧ sublime.popup (stop_tracking started.2.1 started.2.2 edit).2
    = sublime.popup view.
Proof.
  intros started Hstarted.
  destruct (start_tracking_previews cache view start pos forced config
              offset tracker Hstarted) as (Hflag & Hset & _ & Hpop & Hph).
  fold started in Hpop, Hph. repeat split; try done.
  assert (Hget : get_tracker started.2.1 started.2.2 = Some tracker).
  { revert Hstarted. unfold started. rewrite start_tracking_unfold.
    destruct (RegionTracker.update_abbreviation _ view) as [[u|e] parsed];
      simpl; [|done].
    intros [= <-]. destruct (mark_frame parsed view) as (_ & _ & Hid).
    unfold get_tracker. rewrite Hid. apply lookup_insert_eq. }
  rewrite (stop_tracking_unfold _ _ edit tracker Hget). simpl.
  assert (Hunmark :
    sublime.popup (RegionTracker.unmark tracker started.2.2).2
      = sublime.popup view).
  { unfold RegionTracker.unmark. rewrite hide_preview_cleared by done.
    simpl. exact Hpop. }
  by destruct (RegionTracker.forced tracker && bool_decide (is_Some edit)).
Qed.

(** X21. The handlers touch the entry of their own view only: whatever
    [start_tracking], [stop_tracking], [handle_change] and
    [handle_selection_change] do for a view, the tracker registered for
    any other view is the one that was there. *)
Theorem other_views_keep_their_tracker (cache : registry)
    (view : sublime.View) (other : Z) :
  other ≠ sublime.id view →
  (∀ (start pos : Z) (forced : bool) (config : option dict) (offset : Z),
     (start_tracking cache view start pos forced config offset).2.1 !! other
       = cache !! other)
  ∧ (∀ edit : option sublime.Edit,
       (stop_tracking cache view edit).1 !! other = cache !! other)
  ∧ (handle_change cache view).2.1 !! other = cache !! other
  ∧ (∀ caret : option Z,
       (handle_selection_change cache view caret).2 !! other
         = cache !! other).
Proof.
  intros Hother.
  assert (Hstop : ∀ (c : registry) (edit : option sublime.Edit),
    (stop_tracking c view edit).1 !! other = c !! other).
  { intros c edit. destruct (get_tracker c view) as [tracker|] eqn:Hget.
    - rewrite (stop_tracking_unfold _ _ _ _ Hget). simpl.
      by rewrite lookup_delete_ne.
    - by rewrite stop_tracking_absent. }
  split; [|split; [done|split]].
  - intros start pos forced config offset. rewrite start_tracking_unfold.
    destruct (RegionTracker.update_abbreviation _ view) as [[u|e] parsed];
      simpl; [|done].
    by rewrite lookup_insert_ne.
  - destruct (get_tracker cache view) as [tracker|] eqn:Hget.
    + destruct (Z.lt_ge_cases (RegionTracker.last_pos tracker)
                  (sublime.a (RegionTracker.region tracker))) as [Hlo|Hlo].
      { rewrite (handle_change_outside _ _ _ Hget) by by left. apply Hstop. }
      destruct (Z.lt_ge_cases (sublime.b (RegionTracker.region tracker))
                  (RegionTracker.last_pos tracker)) as [Hhi|Hhi].
      { rewrite (handle_change_outside _ _ _ Hget) by by right.
        apply Hstop. }
      rewrite (handle_change_inside _ _ _ Hget (conj Hlo Hhi)). simpl.
      destruct (negb _).
      * simpl. rewrite Hstop. by rewrite lookup_insert_ne.
      * destruct (RegionTracker.update_abbreviation _ view)
          as [[u|e] parsed]; simpl; by rewrite !lookup_insert_ne.
    + unfold handle_change. by rewrite Hget.
  - intros caret. unfold handle_selection_change.
    destruct (get_tracker cache view); simpl; [|done].
    by rewrite lookup_insert_ne.
Qed.

(** X22. [handle_change] never edits the document: the text and the caret
    of the view are what they were, whether the tracker is kept, stopped
    or the re-parse raises. *)
Theorem handle_change_keeps_text (cache : registry) (view : sublime.View) :
  sublime.text (handle_change cache view).2.2 = sublime.text view
  ∧ sublime.caret (handle_change cache view).2.2 = sublime.caret view
  ∧ sublime.id (handle_change cache view).2.2 = sublime.id view.
Proof.
  assert (Hstop : ∀ c : registry,
    sublime.text (stop_tracking c view None).2 = sublime.text view
    ∧ sublime.caret (stop_tracking c view None).2 = sublime.caret view
    ∧ sublime.id (stop_tracking c view None).2 = sublime.id view).
  { intros c. destruct (get_tracker c view) as [tracker|] eqn:Hget.
    - rewrite (stop_tracking_unfold _ _ _ _ Hget). simpl.
      rewrite andb_false_r.
      by destruct (unmark_frame tracker view) as (_ & _ & ? & ? & ?).
    - by rewrite stop_tracking_absent. }
  destruct (get_tracker cache view) as [tracker|] eqn:Hget.
  - destruct (Z.lt_ge_cases (RegionTracker.last_pos tracker)
                (sublime.a (RegionTracker.region tracker))) as [Hlo|Hlo].
    { rewrite (handle_change_outside _ _ _ Hget) by by left. apply Hstop. }
    destruct (Z.lt_ge_cases (sublime.b (RegionTracker.region tracker))
                (RegionTracker.last_pos tracker)) as [Hhi|Hhi].
    { rewrite (handle_change_outside _ _ _ Hget) by by right. apply Hstop. }
    rewrite (handle_change_inside _ _ _ Hget (conj Hlo Hhi)). simpl.
    destruct (negb _); [apply Hstop|].
    destruct (RegionTracker.update_abbreviation _ view) as [[u|e] parsed];
      simpl; [|done].
    unfold RegionTracker.mark. by destruct (RegionTracker.forced parsed).
  - unfold handle_change. by rewrite Hget.
Qed.

Lemma update_abbreviation_raise (self : RegionTracker.t)
    (view : sublime.View) (e : py.exn) :
  (RegionTracker.update_abbreviation self view).1 = py.Raise e →
  (RegionTracker.update_abbreviation self view).2
    = RegionTracker.set_abbreviation
        (RegionTracker.resolve_config self view) AbbrNone
  ∧ scanner_failure e = None.
Proof.
  destruct (py.nonempty (RegionTracker.tracked_text self view)) eqn:Htext.
  - rewrite (update_abbreviation_parse self view Htext). simpl.
    destruct (RegionTracker.parse_and_expand _ _) as [[simple preview]|e'];
      simpl; [done|].
    destruct (scanner_failure e') as [[message pos]|] eqn:Hscan; simpl;
      [done|].
    by intros [= <-].
  - by rewrite (update_abbreviation_empty self view Htext).
Qed.

(** X23. When the re-parse raises inside [handle_change] (an exception
    that is no scanner error), the exception leaves the handler after the
    span was moved: the tracker stays registered with the edited span and
    the new snapshots, its abbreviation record is missing, and the view is
    not touched, so the decoration still shows the span before the
    edit. *)
Theorem handle_change_when_parser_raises (cache : registry)
    (view : sublime.View) (tracker : RegionTracker.t) (e : py.exn) :
  get_tracker cache view = Some tracker →
  sublime.a (RegionTracker.region tracker) ≤ RegionTracker.last_pos tracker
  ≤ sublime.b (RegionTracker.region tracker) →
  let edited :=
    apply_delta
      (RegionTracker.set_last tracker (utils.get_caret view)
         (sublime.size view))
      (RegionTracker.last_pos tracker)
      (sublime.size view - RegionTracker.last_length tracker) in
  RegionTracker.is_valid_range edited = true →
  (RegionTracker.update_abbreviation edited view).1 = py.Raise e →
  let kept :=
    RegionTracker.set_abbreviation
      (RegionTracker.resolve_config edited view) AbbrNone in
  handle_change cache view
    = (py.Raise e, (<[sublime.id view := kept]> cache, view))
  ∧ RegionTracker.region kept = RegionTracker.region edited
  ∧ RegionTracker.last_pos kept = utils.get_caret view
  ∧ RegionTracker.last_length kept = sublime.size view
  ∧ scanner_failure e = None.
Proof.
  intros Hget Hin edited Hvalid Hraise kept.
  destruct (update_abbreviation_raise edited view e Hraise) as [Hkept Hscan].
  fold kept in Hkept.
  rewrite (handle_change_inside _ _ _ Hget Hin). simpl. fold edited.
  rewrite Hvalid. simpl.
  destruct (RegionTracker.update_abbreviation edited view) as [r parsed].
  simpl in Hraise, Hkept. subst r parsed.
  rewrite insert_insert_eq. split; [done|].
  split; [|split; [|split; [|done]]];
    unfold kept, RegionTracker.resolve_config, edited, apply_delta;
    by repeat match goal with
              | |- context [if ?c then _ else _] => destruct c
              end.
Qed.

(** X24. A caret movement changes the caret snapshot of the tracker and
    nothing else of it; and once the caret is moved out of the span, the
    next change of the document stops the tracking, whatever the change
    is. *)
Theorem caret_outside_stops_tracking (cache : registry)
    (view view' : sublime.View) (caret : option Z)
    (tracker : RegionTracker.t) :
  get_tracker cache view = Some tracker →
  let c := default (utils.get_caret view) caret in
  let moved := handle_selection_change cache view caret in
  moved.1
    = Some (RegionTracker.set_last tracker c
              (RegionTracker.last_length tracker))
  ∧ get_tracker moved.2 view = moved.1
  ∧ (sublime.id view' = sublime.id view →
     c < sublime.a (RegionTracker.region tracker)
     ∨ sublime.b (RegionTracker.region tracker) < c →
     handle_change moved.2 view'
       = (py.Return None, stop_tracking moved.2 view' None)
     ∧ get_tracker (handle_change moved.2 view').2.1
         (handle_change moved.2 view').2.2 = None).
Proof.
  intros Hget c moved. unfold moved, handle_selection_change.
  rewrite Hget. simpl. fold c.
  split; [done|]. split; [apply lookup_insert_eq|].
  intros Hid Hout.
  assert (Hmoved :
    get_tracker
      (<[sublime.id view :=
           RegionTracker.set_last tracker c
             (RegionTracker.last_length tracker)]> cache) view'
    = Some (RegionTracker.set_last tracker c
              (RegionTracker.last_length tracker))).
  { unfold get_tracker. rewrite Hid. apply lookup_insert_eq. }
  rewrite (handle_change_outside _ _ _ Hmoved) by exact Hout.
  split; [done|]. apply stop_tracking_forgets.
Qed.

End lifecycle_facts.

Lemma stop_undoes_start_witness :
  stop_tracking
    (start_tracking (collab := demo.collaborators true) ∅
       (demo.view_of "ab123cd" 5) 2 5 true None 0).2.1
    (start_tracking (collab := demo.collaborators true) ∅
       (demo.view_of "ab123cd" 5) 2 5 true None 0).2.2 None
  = (∅, demo.view_of "ab123cd" 5).
Proof.
  eapply (stop_undoes_start (collab := demo.collaborators true) ∅
            (demo.view_of "ab123cd" 5) 2 5 true None 0);
    [reflexivity | reflexivity | reflexivity | vm_compute; reflexivity].
Defined.

Lemma start_tracking_leaves_previews_witness :
  sublime.popup
    (stop_tracking
       (start_tracking (collab := demo.collaborators true) ∅
          (demo.view_with_popup "div" 3) 0 3 false None 0).2.1
       (start_tracking (collab := demo.collaborators true) ∅
          (demo.view_with_popup "div" 3) 0 3 false None 0).2.2 None).2
  = sublime.popup (demo.view_with_popup "div" 3).
Proof.
  eapply (start_tracking_leaves_previews (collab := demo.collaborators true)
            ∅ (demo.view_with_popup "div" 3) 0 3 false None 0).
  vm_compute. reflexivity.
Defined.

Lemma other_views_keep_their_tracker_witness :
  (handle_change (collab := demo.collaborators true)
     (demo.tracking 5 9 9 false)
     (sublime.mkView 2 "other text" 3 ∅ ∅ None)).2.1 !! 1
  = Some (RegionTracker.init 5 9 9 false).
Proof.
  destruct (other_views_keep_their_tracker
              (collab := demo.collaborators true)
              (demo.tracking 5 9 9 false)
              (sublime.mkView 2 "other text" 3 ∅ ∅ None) 1)
    as (_ & _ & Hchange & _); [discriminate|].
  rewrite Hchange. reflexivity.
Defined.

Lemma handle_change_when_parser_raises_witness :
  (handle_change (collab := demo.collaborators true)
     (demo.tracking 0 3 3 false) (demo.view_of "boom" 4)).1
  = py.Raise (py.OtherException "RecursionError")
  ∧ RegionTracker.region
      <$> get_tracker
            (handle_change (collab := demo.collaborators true)
               (demo.tracking 0 3 3 false) (demo.view_of "boom" 4)).2.1
            (demo.view_of "boom" 4)
    = Some (sublime.mkRegion 0 4).
Proof.
  destruct (handle_change_when_parser_raises
              (collab := demo.collaborators true)
              (demo.tracking 0 3 3 false) (demo.view_of "boom" 4)
              (RegionTracker.init 0 3 3 false)
              (py.OtherException "RecursionError"))
    as (Hchange & _);
    [vm_compute; reflexivity | vm_compute; split; discriminate
    | vm_compute; reflexivity | vm_compute; reflexivity |].
  rewrite Hchange. split; [reflexivity|]. vm_compute. reflexivity.
Defined.

Lemma caret_outside_stops_tracking_witness :
  get_tracker
    (handle_change (collab := demo.collaborators true)
       (handle_selection_change (demo.tracking 5 9 9 false)
          (demo.view_of "01234abcd" 9) (Some 2)).2
       (demo.view_of "01x234abcd" 3)).2.1
    (handle_change (collab := demo.collaborators true)
       (handle_selection_change (demo.tracking 5 9 9 false)
          (demo.view_of "01234abcd" 9) (Some 2)).2
       (demo.view_of "01x234abcd" 3)).2.2
  = None.
Proof.
  destruct (caret_outside_stops_tracking (collab := demo.collaborators true)
              (demo.tracking 5 9 9 false) (demo.view_of "01234abcd" 9)
              (demo.view_of "01x234abcd" 3) (Some 2)
              (RegionTracker.init 5 9 9 false))
    as (_ & _ & Hnext); [vm_compute; reflexivity|].
  apply Hnext; [reflexivity | left; vm_compute; reflexivity].
Defined.
